(** * TrackBeats backend: session cache, credential refresh, and the
      activity/music cross-reference pipeline of [app.py]

    The Flask handlers of [app.py] are embedded as state-passing programs
    over an explicit state: the Redis session store, the outside world
    (HTTP providers and the clock) and the log of every provider request
    sent so far.  Python exceptions are an outcome of their own, so that
    [try]/[except] blocks are modelled as written. *)

From Stdlib Require Import ZArith QArith Ascii String List Bool Lia.
From stdpp Require Import base option list gmap strings.

Set Warnings "-register-all".

Open Scope string_scope.
Open Scope Z_scope.

(** ** JSON values as Python sees them *)

Inductive value : Type :=
| VNone
| VBool (b : bool)
| VInt (z : Z)
| VFloat (q : Q)
| VStr (s : string)
| VList (l : list value)
| VDict (d : list (string * value)).

Module Py.

(** Python's truth test: [None], [False], zero, and the empty string,
    list and dict are false. *)
Definition truthy (v : value) : bool :=
  match v with
  | VNone => false
  | VBool b => b
  | VInt z => negb (z =? 0)
  | VFloat q => negb (Qeq_bool q 0)
  | VStr s => negb (String.eqb s "")
  | VList l => match l with [] => false | _ => true end
  | VDict d => match d with [] => false | _ => true end
  end.

(** A dict is an association list whose first binding of a key is the
    live one. *)
Fixpoint assoc_get (k : string) (d : list (string * value)) : option value :=
  match d with
  | [] => None
  | (k', v) :: d' => if String.eqb k k' then Some v else assoc_get k d'
  end.

(** [d[k] = v]: overwrite in place, or append a new key. *)
Fixpoint assoc_set (k : string) (v : value) (d : list (string * value))
  : list (string * value) :=
  match d with
  | [] => [(k, v)]
  | (k', v') :: d' =>
      if String.eqb k k' then (k, v) :: d' else (k', v') :: assoc_set k v d'
  end.

(** [x.get(k)]: only a dict has the method; a missing key gives [None].
    [None] as a result of this function is the raised exception. *)
Definition get (x : value) (k : string) : option value :=
  match x with
  | VDict d => Some (default VNone (assoc_get k d))
  | _ => None
  end.

(** [x[k]] with a text key: [KeyError] on a missing key, [TypeError] on
    anything that is not a dict. *)
Definition item (x : value) (k : string) : option value :=
  match x with
  | VDict d => assoc_get k d
  | _ => None
  end.

(** [x[k] = v] on a dict. *)
Definition set_item (x : value) (k : string) (v : value) : option value :=
  match x with
  | VDict d => Some (VDict (assoc_set k v d))
  | _ => None
  end.

(** [x[0]]. *)
Definition first (x : value) : option value :=
  match x with
  | VList (v :: _) => Some v
  | VStr (String c _) => Some (VStr (String c ""))
  | _ => None
  end.

(** Iterating a value ([for], [list.extend]): a dict yields its keys, a
    string its characters; other values are not iterable. *)
Fixpoint chars (s : string) : list value :=
  match s with
  | EmptyString => []
  | String c s' => VStr (String c "") :: chars s'
  end.

Definition iter (x : value) : option (list value) :=
  match x with
  | VList l => Some l
  | VDict d => Some (map (fun kv => VStr (fst kv)) d)
  | VStr s => Some (chars s)
  | _ => None
  end.

Definition len (x : value) : option Z :=
  match x with
  | VList l => Some (Z.of_nat (length l))
  | VDict d => Some (Z.of_nat (length d))
  | VStr s => Some (Z.of_nat (String.length s))
  | _ => None
  end.

(** A value read as a number in an arithmetic or ordering operation. *)
Definition num (x : value) : option Q :=
  match x with
  | VInt z => Some (inject_Z z)
  | VFloat q => Some q
  | VBool b => Some (inject_Z (if b then 1 else 0))
  | _ => None
  end.

Definition Qlt_bool (x y : Q) : bool := negb (Qle_bool y x).

(** [==] on values.  Numbers compare by value across int, float and
    bool; dicts compare key by key whatever the order. *)
Fixpoint eq (a b : value) {struct a} : bool :=
  match a, b with
  | VNone, VNone => true
  | VStr s, VStr t => String.eqb s t
  | VList l, VList m =>
      (fix go (l m : list value) {struct l} : bool :=
         match l, m with
         | [], [] => true
         | x :: l', y :: m' => eq x y && go l' m'
         | _, _ => false
         end) l m
  | VDict d, VDict e =>
      (length d =? length e)%nat &&
      (fix go (d : list (string * value)) {struct d} : bool :=
         match d with
         | [] => true
         | (k, v) :: d' =>
             match assoc_get k e with
             | Some w => eq v w
             | None => false
             end && go d'
         end) d
  | (VInt _ | VFloat _ | VBool _), (VInt _ | VFloat _ | VBool _) =>
      match num a, num b with
      | Some x, Some y => Qeq_bool x y
      | _, _ => false
      end
  | _, _ => false
  end.

(** [[x for x in l if test(x)]]: the comprehension raises as soon as
    the test does. *)
Fixpoint keep_if (test : value -> option bool) (l : list value)
  : option (list value) :=
  match l with
  | [] => Some []
  | x :: l' =>
      b ← test x;
      r ← keep_if test l';
      Some (if b : bool then x :: r else r)
  end.

(** [z + x] for an int [z]. *)
Definition add_int (z : Z) (x : value) : option value :=
  match x with
  | VInt e => Some (VInt (z + e))
  | VBool b => Some (VInt (z + (if b then 1 else 0)))
  | VFloat q => Some (VFloat (inject_Z z + q))
  | _ => None
  end.

(** [int(q)] for a float: rounding toward zero. *)
Definition trunc (q : Q) : Z := Z.quot (Qnum q) (Zpos (Qden q)).

End Py.

(** ** Requests, responses and the outside world *)

Inductive verb := GET | POST.

(** One call of [requests.get] or [requests.post]. *)
Record request := Request {
  rq_verb : verb;
  rq_url : string;
  rq_params : list (string * value);
  rq_data : list (string * value);
  rq_headers : list (string * string)
}.

(** What a Flask view hands back. *)
Inductive response :=
| Json (body : value)
| Abort (code : Z).

(** Everything the handlers call that [app.py] does not define.  [send]
    stands for the providers behind [requests.get] and [requests.post]: it
    answers [None] when the call itself raises, and otherwise the response
    object, which is the result of its [.json()] ([None] when decoding
    raises).  The others are the clock, the process environment, and the
    library functions [str], [int] on text, [base64.b64encode] and
    [dateutil]'s parser followed by [.timestamp()]. *)
Class Host (W : Type) := {
  send : request -> W -> option (option value) * W;
  time_time : W -> Q * W;
  environ_get : string -> option string;
  py_str : value -> string;
  int_of_text : string -> option Z;
  b64encode : string -> string;
  parse_timestamp : string -> option Q
}.

Abbreviation session := (gmap string value).

(** The machine state a handler runs in.  [trace] lists the provider
    requests sent, most recent first. *)
Record state (W : Type) := State {
  redis : gmap string (gmap string value);
  world : W;
  trace : list request
}.
Arguments State {W}.
Arguments redis {W}.
Arguments world {W}.
Arguments trace {W}.

Inductive outcome (A : Type) :=
| Return (a : A)
| Raise
| OutOfFuel.
Arguments Return {A}.
Arguments Raise {A}.
Arguments OutOfFuel {A}.

Definition M (W A : Type) : Type := state W -> outcome A * state W.

Definition ret {W A} (a : A) : M W A := fun st => (Return a, st).

Definition bind {W A B} (c : M W A) (k : A -> M W B) : M W B :=
  fun st =>
    match c st with
    | (Return a, st') => k a st'
    | (Raise, st') => (Raise, st')
    | (OutOfFuel, st') => (OutOfFuel, st')
    end.

Definition raise {W A} : M W A := fun st => (Raise, st).

Definition out_of_fuel {W A} : M W A := fun st => (OutOfFuel, st).

(** A pure Python operation that may raise. *)
Definition lift {W A} (o : option A) : M W A :=
  match o with
  | Some a => ret a
  | None => raise
  end.

(** [try: body  except: handler], followed by [rest] when the body went
    through.  Only the body is guarded. *)
Definition try_except {W A B} (body : M W A) (rest : A -> M W B)
    (handler : M W B) : M W B :=
  fun st =>
    match body st with
    | (Return a, st') => rest a st'
    | (Raise, st') => handler st'
    | (OutOfFuel, st') => (OutOfFuel, st')
    end.

Notation "'let*' x ':=' c 'in' k" := (bind c (fun x => k))
  (at level 10, x pattern, c at level 100, k at level 200).
Notation "c ';;' k" := (bind c (fun _ => k))
  (at level 100, k at level 200, right associativity).

Section Handlers.

Context {W : Type} `{Host W}.

(** *** Primitive effects *)

(** [requests.get(...)] and [requests.post(...)]: the response object. *)
Definition requests_call (rq : request) : M W (option value) :=
  fun st =>
    let '(reply, w) := send rq (world st) in
    let st' := State (redis st) w (rq :: trace st) in
    match reply with
    | Some r => (Return r, st')
    | None => (Raise, st')
    end.

(** [response.json()]. *)
Definition json (r : option value) : M W value := lift r.

(** A call decoded at once. *)
Definition requests (rq : request) : M W value :=
  let* r := requests_call rq in json r.

Definition now : M W Q :=
  fun st =>
    let '(t, w) := time_time (world st) in
    (Return t, State (redis st) w (trace st)).

(** [redis_instance.get(key)]. *)
Definition redis_get (key : string) : M W (option session) :=
  fun st => (Return (redis st !! key), st).

(** [redis_instance.set(key, pickle.dumps(record))].  The client refuses
    a key of [None]. *)
Definition redis_set (key : option string) (record : session) : M W unit :=
  match key with
  | Some k => fun st => (Return tt, State (<[k := record]> (redis st)) (world st) (trace st))
  | None => raise
  end.

(** [os.environ.get(name)] as a value. *)
Definition environ (name : string) : value :=
  match environ_get name with
  | Some s => VStr s
  | None => VNone
  end.

(** [user_session.get(field)]. *)
Definition field (user_session : session) (name : string) : value :=
  default VNone (user_session !! name).

(** Truth of a header or query argument: present and not empty. *)
Definition given (arg : option string) : bool :=
  match arg with
  | Some s => negb (String.eqb s "")
  | None => false
  end.

Definition error_status_true : response :=
  Json (VDict [("error_status", VBool true)]).

(** *** [get_session] *)

Definition get_session (session_id : option string) : M W session :=
  match session_id with
  | Some id =>
      if negb (String.eqb id "") then
        let* user_session := redis_get id in
        match user_session with
        | Some record => ret record
        | None => ret ∅
        end
      else ret ∅
  | None => ret ∅
  end.

(** *** [check_access_token_status] *)

Definition strava_token_url : string := "https://www.strava.com/oauth/token".

Definition refresh_request (user_session : session) : request :=
  Request POST strava_token_url
    [("client_id", environ "STRAVA_CLIENT_ID");
     ("client_secret", environ "STRAVA_CLIENT_SECRET");
     ("grant_type", VStr "refresh_token");
     ("refresh_token", field user_session "refresh_token")]
    [] [].

Definition check_access_token_status (session_id : option string) : M W unit :=
  let* user_session := get_session session_id in
  if Py.truthy (field user_session "user_id") then
    let expiry_time := field user_session "access_token_expirytime" in
    let* t := now in
    let* expiry := lift (Py.num expiry_time) in
    if Py.Qlt_bool expiry t then
      try_except
        (let* response_data := requests (refresh_request user_session) in
         let* access_token := lift (Py.item response_data "access_token") in
         let user_session := <["access_token" := access_token]> user_session in
         let* refresh_token := lift (Py.item response_data "refresh_token") in
         let user_session := <["refresh_token" := refresh_token]> user_session in
         let* expires_at := lift (Py.item response_data "expires_at") in
         let user_session := <["access_token_expirytime" := expires_at]> user_session in
         redis_set session_id user_session)
        ret
        raise
    else ret tt
  else raise.

(** *** [get_user_activity_data] *)

Definition bearer (user_session : session) : list (string * string) :=
  [("Authorization", "Bearer " +:+ py_str (field user_session "access_token"))].

Definition activities_url : string :=
  "https://www.strava.com/api/v3/athlete/activities".

(** The [while True] loop.  [request_payload] is built once, before the
    loop; the loop body increments the local [page_number] and never
    stores it back into the payload. *)
Fixpoint fetch_activities (fuel : nat) (user_session : session)
    (request_payload : list (string * value))
    (all_strava_activities : list value) (page_number : Z)
  : M W (list value) :=
  match fuel with
  | O => out_of_fuel
  | S fuel' =>
      let* retrieved_data :=
        requests (Request GET activities_url request_payload [] (bearer user_session)) in
      let* items := lift (Py.iter retrieved_data) in
      let all_strava_activities := (all_strava_activities ++ items)%list in
      let page_number := page_number + 1 in
      let* n := lift (Py.len retrieved_data) in
      if negb (n =? 200) then ret all_strava_activities
      else fetch_activities fuel' user_session request_payload
             all_strava_activities page_number
  end.

Definition activity_payload (start_date end_date : option string)
  : list (string * value) :=
  let page_number := 1 in
  let request_payload := [("per_page", VInt 200); ("page", VInt page_number)] in
  let request_payload :=
    if given start_date
    then Py.assoc_set "after" (VStr (default "" start_date)) request_payload
    else request_payload in
  if given end_date
  then Py.assoc_set "before" (VStr (default "" end_date)) request_payload
  else request_payload.

(** [[a for a in l if a['type'] == 'Run']] *)
Definition is_run (activity : value) : option bool :=
  ty ← Py.item activity "type";
  Some (Py.eq ty (VStr "Run")).

Definition run_filter (l : list value) : option (list value) :=
  Py.keep_if is_run l.

Definition get_user_activity_data (fuel : nat) (session_id : option string)
    (start_date end_date : option string) : M W response :=
  let* user_session := get_session session_id in
  if Py.truthy (field user_session "user_id") then
    if Py.truthy (field user_session "run_activities")
       && negb (given start_date || given end_date)
    then ret (Json (VDict [("error_status", VBool false);
                           ("athlete_running_data", field user_session "run_activities")]))
    else
      try_except
        (check_access_token_status session_id ;; get_session session_id)
        (fun user_session =>
           let* all_strava_activities :=
             fetch_activities fuel user_session
               (activity_payload start_date end_date) [] 1 in
           let* run_activities := lift (run_filter all_strava_activities) in
           (if negb (given start_date || given end_date)
            then redis_set session_id
                   (<["run_activities" := VList run_activities]> user_session)
            else ret tt) ;;
           ret (Json (VDict [("error_status", VBool false);
                             ("athlete_running_data", VList run_activities)])))
        (ret error_status_true)
  else ret (Abort 401).

(** *** Per-activity session fields *)

(** [f'{activity_id}'] for a query argument: an absent one prints as
    [None]. *)
Definition arg_text (a : option string) : string := default "None" a.

Definition data_key (activity_id : option string) : string :=
  arg_text activity_id +:+ "_data".
Definition streams_key (activity_id : option string) : string :=
  arg_text activity_id +:+ "_streams".
Definition music_key (activity_id : option string) : string :=
  arg_text activity_id +:+ "_music_data".
Definition spotify_key (activity_id : option string) : string :=
  arg_text activity_id +:+ "_spotify_data".

Definition activity_url (activity_id : option string) : string :=
  "https://www.strava.com/api/v3/activities/" +:+ arg_text activity_id.

Definition detail_request (user_session : session)
    (activity_id : option string) : request :=
  Request GET (activity_url activity_id) [] [] (bearer user_session).

Definition streams_request (user_session : session)
    (activity_id : option string) : request :=
  Request GET (activity_url activity_id +:+ "/streams")
    [("series_type", VStr "time"); ("keys", VStr "latlng,velocity_smooth");
     ("key_by_type", VStr "true")]
    [] (bearer user_session).

(** *** [get_activity_strava_data] *)

(** The guarded block of the view: both fields, the write-back, and the
    test for a provider error. *)
Definition strava_data_block (session_id activity_id : option string)
    (user_session : session) : M W (value * value) :=
  let* (activity_response_data, user_session) :=
    if Py.truthy (field user_session (data_key activity_id))
    then ret (field user_session (data_key activity_id), user_session)
    else
      let* d := requests (detail_request user_session activity_id) in
      ret (d, <[data_key activity_id := d]> user_session) in
  let* (activity_stream_response_data, user_session) :=
    if Py.truthy (field user_session (streams_key activity_id))
    then ret (field user_session (streams_key activity_id), user_session)
    else
      let* d := requests (streams_request user_session activity_id) in
      ret (d, <[streams_key activity_id := d]> user_session) in
  redis_set session_id user_session ;;
  let* errors := lift (Py.get activity_response_data "errors") in
  if Py.truthy errors then raise
  else ret (activity_response_data, activity_stream_response_data).

Definition get_activity_strava_data (session_id activity_id : option string)
  : M W response :=
  let* user_session := get_session session_id in
  if Py.truthy (field user_session "user_id") then
    try_except
      (check_access_token_status session_id ;; get_session session_id)
      (fun user_session =>
         try_except
           (strava_data_block session_id activity_id user_session)
           (fun '(d, s) =>
              ret (Json (VDict [("error_status", VBool false);
                                ("activity_data", d);
                                ("activity_streams", s)])))
           (ret error_status_true))
      (ret error_status_true)
  else ret (Abort 401).

(** *** [get_activity_music_data] *)

Definition lastfm_url : string := "http://ws.audioscrobbler.com/2.0/".

(** [int(x)]. *)
Definition py_int (x : value) : option Z :=
  match x with
  | VInt z => Some z
  | VBool b => Some (if b then 1 else 0)
  | VFloat q => Some (Py.trunc q)
  | VStr s => int_of_text s
  | _ => None
  end.

(** [int(dp.parse(x).timestamp())]. *)
Definition start_time (start_date : value) : option Z :=
  match start_date with
  | VStr s => q ← parse_timestamp s; Some (Py.trunc q)
  | _ => None
  end.

Definition recent_tracks_request (user_session : session)
    (start_time_unix : Z) (end_time_unix : value) : request :=
  let buffered_start_time_unix := start_time_unix - 5 * 60 in
  Request POST lastfm_url
    [("method", VStr "user.getrecenttracks");
     ("user", field user_session "last_fm_username");
     ("api_key", environ "LAST_FM_API_KEY");
     ("from", VInt buffered_start_time_unix);
     ("to", end_time_unix);
     ("format", VStr "json")]
    [] [].

Definition track_info_request (name artist : value) : request :=
  Request POST lastfm_url
    [("method", VStr "track.getInfo");
     ("api_key", environ "LAST_FM_API_KEY");
     ("track", name);
     ("artist", artist);
     ("format", VStr "json")]
    [] [].

(** [not music.get('@attr')] *)
Definition not_now_playing (music : value) : option bool :=
  a ← Py.get music "@attr";
  Some (negb (Py.truthy a)).

(** The [for index, track in enumerate(music_list)] loop: one metadata
    lookup per track, whose duration and body are stored in the entry. *)
Fixpoint enrich (music_list : list value) : M W (list value) :=
  match music_list with
  | [] => ret []
  | track :: rest =>
      let* name := lift (Py.get track "name") in
      let* artist := lift (Py.get track "artist") in
      let* artist_text := lift (Py.get artist "#text") in
      let* track_info_data := requests (track_info_request name artist_text) in
      let* info := lift (Py.get track_info_data "track") in
      let* duration := lift (Py.get info "duration") in
      let* track := lift (Py.set_item track "duration" duration) in
      let* track := lift (Py.set_item track "music_extra_info" info) in
      let* rest := enrich rest in
      ret (track :: rest)
  end.

(** [(int(music['duration']) / 1000) + int(music['date']['uts'])], the
    second at which the play ended. *)
Definition end_of_play (music : value) : option Q :=
  duration ← Py.item music "duration";
  d ← py_int duration;
  date ← Py.item music "date";
  uts ← Py.item date "uts";
  u ← py_int uts;
  Some (inject_Z d / 1000 + inject_Z u)%Q.

(** [not (... < start_time_unix)] *)
Definition still_playing (start_time_unix : Z) (music : value) : option bool :=
  e ← end_of_play music;
  Some (negb (Py.Qlt_bool e (inject_Z start_time_unix))).

(** The guarded block that computes and caches the track list. *)
Definition music_block (session_id activity_id : option string)
    (user_session : session) (start_time_unix : Z) (end_time_unix : value)
  : M W value :=
  let* music_response_data :=
    requests (recent_tracks_request user_session start_time_unix end_time_unix) in
  let* recenttracks := lift (Py.get music_response_data "recenttracks") in
  let* music_list := lift (Py.get recenttracks "track") in
  let music_list :=
    match music_list with
    | VList l => l
    | other => [other]
    end in
  let* music_list := lift (Py.keep_if not_now_playing music_list) in
  let* music_list := enrich music_list in
  let* music_list := lift (Py.keep_if (still_playing start_time_unix) music_list) in
  let user_session := <[music_key activity_id := VList music_list]> user_session in
  redis_set session_id user_session ;;
  ret (VList music_list).

(** The view from the computation of the time window on. *)
Definition music_after_detail (session_id activity_id : option string)
    (user_session : session) (activity_response_data : value) : M W response :=
  let* start_date := lift (Py.get activity_response_data "start_date") in
  let* start_time_unix := lift (start_time start_date) in
  let* elapsed_time := lift (Py.get activity_response_data "elapsed_time") in
  let* end_time_unix := lift (Py.add_int start_time_unix elapsed_time) in
  let reply (music_list : value) : M W response :=
    ret (Json (VDict [("music_data", music_list);
                      ("activity_times",
                        VDict [("startTime", VInt start_time_unix);
                               ("endTime", end_time_unix)])])) in
  if Py.truthy (field user_session (music_key activity_id))
  then reply (field user_session (music_key activity_id))
  else
    try_except
      (music_block session_id activity_id user_session start_time_unix end_time_unix)
      reply
      (ret error_status_true).

Definition get_activity_music_data (session_id activity_id : option string)
  : M W response :=
  let* user_session := get_session session_id in
  if Py.truthy (field user_session "user_id") then
    if Py.truthy (field user_session (data_key activity_id))
    then music_after_detail session_id activity_id user_session
           (field user_session (data_key activity_id))
    else
      try_except
        (check_access_token_status session_id ;; get_session session_id)
        (fun user_session =>
           let* activity_response_data :=
             requests (detail_request user_session activity_id) in
           music_after_detail session_id activity_id user_session
             activity_response_data)
        (ret error_status_true)
  else ret (Abort 401).

(** *** [refresh_spotify_access_token] and [retrieve_data_from_spotify] *)

Definition spotify_token_url : string := "https://accounts.spotify.com/api/token".

(** The client-credentials exchange; concatenating an unset environment
    variable raises. *)
Definition spotify_token_request : option request :=
  id ← environ_get "SPOTIFY_CLIENT_ID";
  secret ← environ_get "SPOTIFY_CLIENT_SECRET";
  let authorisation_string := id +:+ ":" +:+ secret in
  let authorisation_base64 := b64encode authorisation_string in
  Some (Request POST spotify_token_url []
          [("grant_type", VStr "client_credentials")]
          [("Authorization", "Basic " +:+ authorisation_base64);
           ("Content-Type", "application/x-www-form-urlencoded")]).

(** The test of the [if]: a stored credential, and a clock reading
    strictly before its [expiry_time].  The clock is read only when a
    credential is stored. *)
Definition spotify_token_valid (user_session : session) : M W bool :=
  let stored := field user_session "spotify_access_token" in
  if Py.truthy stored then
    let* t := now in
    let* expiry_time := lift (Py.get stored "expiry_time") in
    let* e := lift (Py.num expiry_time) in
    ret (Py.Qlt_bool t e)
  else ret false.

(** The function returns the token; the session it was handed is the
    caller's own object, so the updated record is returned with it. *)
Definition refresh_spotify_access_token (session_id : option string)
    (user_session : session) : M W (value * session) :=
  let* valid := spotify_token_valid user_session in
  if valid then
    let* token := lift (Py.get (field user_session "spotify_access_token") "token") in
    ret (token, user_session)
  else
    let* rq := lift spotify_token_request in
    let* spotify_auth_response := requests_call rq in
    let* t := now in
    let* body := json spotify_auth_response in
    let* expires_in := lift (Py.get body "expires_in") in
    let* lifetime := lift (Py.num expires_in) in
    let expiry_time := (t + lifetime / 2)%Q in
    let* access_token := lift (Py.get body "access_token") in
    let user_session :=
      <["spotify_access_token" :=
          VDict [("token", access_token); ("expiry_time", VFloat expiry_time)]]>
        user_session in
    redis_set session_id user_session ;;
    ret (access_token, user_session).

Definition spotify_request (access_token url_endpoint : string)
    (params : list (string * value)) : request :=
  Request GET ("https://api.spotify.com/v1/" +:+ url_endpoint) params []
    [("Authorization", "Bearer " +:+ access_token)].

Definition retrieve_data_from_spotify (session_id : option string)
    (user_session : session) (url_endpoint : string)
    (params : list (string * value)) : M W (value * session) :=
  let* (access_token, user_session) :=
    refresh_spotify_access_token session_id user_session in
  let* token := lift (match access_token with VStr s => Some s | _ => None end) in
  let* response_data := requests (spotify_request token url_endpoint params) in
  ret (response_data, user_session).

(** *** [get_music_artist_data] *)

(** [t.get('album').get('images')[0].get('url')] under its own
    [try]/[except]: any failure gives [None]. *)
Definition album_image (t : value) : value :=
  default VNone
    (album ← Py.get t "album";
     images ← Py.get album "images";
     image ← Py.first images;
     Py.get image "url").

(** The dict [track_relevant_data] of both loops, for the track [t]
    credited to [artist]. *)
Definition track_relevant_data (t artist : value) : option value :=
  preview_url ← Py.get t "preview_url";
  track_name ← Py.get t "name";
  Some (VDict [("image", album_image t);
               ("preview_url", preview_url);
               ("track_name", track_name);
               ("artist", artist)]).

(** The loop over the artist's top tracks, the current track left out. *)
Fixpoint top_tracks (top_tracks_data : list value) (music_data artist_data : value)
  : option (list value) :=
  match top_tracks_data with
  | [] => Some []
  | top_track :: rest =>
      name ← Py.get top_track "name";
      current ← Py.get music_data "name";
      entry ←
        (if negb (Py.eq name current) then
           artist ← Py.get artist_data "name";
           e ← track_relevant_data top_track artist;
           Some [e]
         else Some []);
      others ← top_tracks rest music_data artist_data;
      Some (entry ++ others)%list
  end.

(** [recommended_track.get('album').get('artists')[0].get('name')] *)
Definition album_artist_name (recommended_track : value) : option value :=
  album ← Py.get recommended_track "album";
  artists ← Py.get album "artists";
  artist ← Py.first artists;
  Py.get artist "name".

(** The loop over the recommendations, those of the seed artist left
    out. *)
Fixpoint recommended (recommended_tracks_data : list value) (artist_data : value)
  : option (list value) :=
  match recommended_tracks_data with
  | [] => Some []
  | recommended_track :: rest =>
      name ← album_artist_name recommended_track;
      seed ← Py.get artist_data "name";
      entry ←
        (if negb (Py.eq name seed) then
           artist ← album_artist_name recommended_track;
           e ← track_relevant_data recommended_track artist;
           Some [e]
         else Some []);
      others ← recommended rest artist_data;
      Some (entry ++ others)%list
  end.

(** [if len(l) > 10: l = l[0:10]] *)
Definition limit_to_10 (l : list value) : list value :=
  if (10 <? Z.of_nat (length l)) then firstn 10 l else l.

Definition recommended_music_params (artist_id music_id : value)
  : list (string * value) :=
  [("seed_artist", artist_id); ("seed_tracks", music_id); ("limit", VInt 15)].

(** The dict [spotify_retrieved_data]. *)
Definition spotify_retrieved_data (music_data artist_data : value)
    (top_tracks_list recommended_tracks_list : list value) : option value :=
  name ← Py.get music_data "name";
  artist_name ← Py.get artist_data "name";
  images ← Py.get artist_data "images";
  image ← Py.first images;
  url ← Py.get image "url";
  preview ← Py.get music_data "preview_url";
  genres ← Py.get artist_data "genres";
  Some (VDict [("current_track",
                 VDict [("name", name);
                        ("artist", VDict [("name", artist_name);
                                          ("image", url);
                                          ("top_tracks", VList top_tracks_list)]);
                        ("preview", preview);
                        ("genres", genres)]);
               ("recommended_tracks", VList recommended_tracks_list)]).

Definition track_params (track : value) : option (list (string * value)) :=
  album ← Py.get track "album";
  album_text ← Py.get album "#text";
  artist ← Py.get track "artist";
  artist_text ← Py.get artist "#text";
  name ← Py.get track "name";
  Some [("q", VStr (py_str album_text +:+ " " +:+ py_str artist_text
                      +:+ " " +:+ py_str name));
        ("type", VList [VStr "track"]);
        ("limit", VInt 1)].

Definition artist_params (track : value) : option (list (string * value)) :=
  artist ← Py.get track "artist";
  artist_text ← Py.get artist "#text";
  Some [("q", artist_text); ("type", VList [VStr "artist"]); ("limit", VInt 1)].

(** [x.get(a).get('items')[0]] *)
Definition first_item (x : value) (a : string) : option value :=
  found ← Py.get x a;
  items ← Py.get found "items";
  Py.first items.

(** The body of [for track in music_list], up to the assembled record. *)
Definition cross_reference (session_id : option string)
    (user_session : session) (track : value) : M W (value * session) :=
  let* tp := lift (track_params track) in
  let* ap := lift (artist_params track) in
  let* (found, user_session) :=
    retrieve_data_from_spotify session_id user_session "search" tp in
  let* music := lift (first_item found "tracks") in
  let* music_id := lift (Py.get music "id") in
  let* (found, user_session) :=
    retrieve_data_from_spotify session_id user_session "search" ap in
  let* artist_data := lift (first_item found "artists") in
  let* artist_id := lift (Py.get artist_data "id") in
  let* (music_data, user_session) :=
    retrieve_data_from_spotify session_id user_session
      ("tracks/" +:+ py_str music_id) [] in
  let* (top, user_session) :=
    retrieve_data_from_spotify session_id user_session
      ("artists/" +:+ py_str artist_id +:+ "/top-tracks") [("market", VStr "GB")] in
  let* top_tracks_data := lift (Py.get top "tracks") in
  let* top_tracks_data := lift (Py.iter top_tracks_data) in
  let* top_tracks_list := lift (top_tracks top_tracks_data music_data artist_data) in
  let* (rec, user_session) :=
    retrieve_data_from_spotify session_id user_session "recommendations"
      (recommended_music_params artist_id music_id) in
  let* recommended_tracks_data := lift (Py.get rec "tracks") in
  let* recommended_tracks_data := lift (Py.iter recommended_tracks_data) in
  let* recommended_tracks_list :=
    lift (recommended recommended_tracks_data artist_data) in
  let recommended_tracks_list := limit_to_10 recommended_tracks_list in
  let* record :=
    lift (spotify_retrieved_data music_data artist_data top_tracks_list
            recommended_tracks_list) in
  ret (record, user_session).

(** The [for track in music_list] loop: each record is appended, stored
    in the session under the activity's key, and the session saved,
    before the next track is taken.  The loop leaves both of its
    variables, the result list and the session, to the code after it. *)
Fixpoint cross_reference_all (session_id activity_id : option string)
    (music_list : list value) (user_session : session)
    (spotify_data_list : list value) : M W (list value * session) :=
  match music_list with
  | [] => ret (spotify_data_list, user_session)
  | track :: rest =>
      let* (record, user_session) :=
        cross_reference session_id user_session track in
      let spotify_data_list := (spotify_data_list ++ [record])%list in
      let user_session :=
        <[spotify_key activity_id := VList spotify_data_list]> user_session in
      redis_set session_id user_session ;;
      cross_reference_all session_id activity_id rest user_session
        spotify_data_list
  end.

(** The guarded block of the view. *)
Definition artist_block (session_id activity_id : option string)
    (user_session : session) : M W value :=
  if Py.truthy (field user_session (spotify_key activity_id))
  then ret (field user_session (spotify_key activity_id))
  else
    let music_list := field user_session (music_key activity_id) in
    let* tracks := lift (Py.iter music_list) in
    let* (spotify_data_list, _) :=
      cross_reference_all session_id activity_id tracks user_session [] in
    ret (VList spotify_data_list).

Definition get_music_artist_data (session_id activity_id : option string)
  : M W response :=
  let* user_session := get_session session_id in
  if Py.truthy (field user_session "user_id") then
    try_except
      (artist_block session_id activity_id user_session)
      (fun spotify_data_list => ret (Json spotify_data_list))
      (ret error_status_true)
  else ret (Abort 401).

(** *** [retrieve_lastfm_user] *)

Definition arg_value (a : option string) : value :=
  match a with
  | Some s => VStr s
  | None => VNone
  end.

Definition user_info_request (username : option string) : request :=
  Request POST lastfm_url
    [("method", VStr "user.getinfo");
     ("user", arg_value username);
     ("api_key", environ "LAST_FM_API_KEY");
     ("format", VStr "json")]
    [] [].

Definition retrieve_lastfm_user (session_id username : option string)
  : M W response :=
  let* user_session := get_session session_id in
  try_except
    (let* response_data := requests (user_info_request username) in
     let* error := lift (Py.get response_data "error") in
     if Py.truthy error then raise
     else
       let user_session :=
         <["last_fm_username" := arg_value username]> user_session in
       redis_set session_id user_session)
    (fun _ => ret (Json (VDict [("error", VBool false)])))
    (ret (Json (VDict [("error", VBool true)]))).

End Handlers.

(** ** The views the pipeline does not go through *)

Section OtherViews.

Context {W : Type} `{Host W}.

(** [redis_instance.delete(key)].  As for [set], the client refuses a key
    of [None]; a key that is not stored is no error. *)
Definition redis_delete (key : option string) : M W unit :=
  match key with
  | Some k =>
      fun st => (Return tt, State (delete k (redis st)) (world st) (trace st))
  | None => raise
  end.

(** *** [auth_callback] *)

Definition code_exchange_request (auth_code : option string) : request :=
  Request POST strava_token_url
    [("client_id", environ "STRAVA_CLIENT_ID");
     ("client_secret", environ "STRAVA_CLIENT_SECRET");
     ("code", arg_value auth_code);
     ("grant_type", VStr "authorization_code")]
    [] [].

(** The guarded block of the view.  [token] is what
    [secrets.token_hex(16)] drew.  The block builds the session record
    field by field, saves it under the token, and hands back
    [flaskResponse]. *)
Definition login_block (token : string) (auth_code : option string) : M W value :=
  let session : session := ∅ in
  let session_id := token in
  let* response_data := requests (code_exchange_request auth_code) in
  let* athlete := lift (Py.item response_data "athlete") in
  let session := <["athlete_info" := athlete]> session in
  let* id := lift (Py.item athlete "id") in
  let session := <["user_id" := id]> session in
  let* access_token := lift (Py.item response_data "access_token") in
  let session := <["access_token" := access_token]> session in
  let* refresh_token := lift (Py.item response_data "refresh_token") in
  let session := <["refresh_token" := refresh_token]> session in
  let* expires_at := lift (Py.item response_data "expires_at") in
  let session := <["access_token_expirytime" := expires_at]> session in
  redis_set (Some session_id) session ;;
  ret (VDict [("error", VBool false);
              ("session_id", VStr session_id);
              ("user_data", athlete)]).

Definition auth_callback (session_id : option string) (token : string)
    (auth_code : option string) : M W response :=
  let* user_session := get_session session_id in
  if negb (Py.truthy (field user_session "user_id")) then
    try_except
      (login_block token auth_code)
      (fun flaskResponse => ret (Json flaskResponse))
      (ret (Json (VDict [("error", VBool true)])))
  else
    ret (Json (VDict [("error", VBool false);
                      ("user_data", field user_session "athlete_info")])).

(** *** [check_authentication] *)

Definition check_authentication (session_id : option string) : M W response :=
  let* user_session := get_session session_id in
  let user_id := field user_session "user_id" in
  if negb (Py.truthy user_id) then ret (Json (VDict [("result", VBool false)]))
  else
    let last_fm_status := Py.truthy (field user_session "last_fm_username") in
    ret (Json (VDict [("result", VBool true);
                      ("last_fm_status", VBool last_fm_status)])).

(** *** [get_user_profile_data] *)

Definition profile_request (user_session : session) : request :=
  Request GET "https://www.strava.com/api/v3/athlete" [] [] (bearer user_session).

Definition get_user_profile_data (session_id : option string) : M W response :=
  let* user_session := get_session session_id in
  if Py.truthy (field user_session "user_id") then
    try_except
      (check_access_token_status session_id ;; get_session session_id)
      (fun user_session =>
         let* user_response_data := requests (profile_request user_session) in
         ret (Json (VDict [("error_status", VBool false);
                           ("athlete_data", user_response_data)])))
      (ret error_status_true)
  else ret (Abort 401).

(** *** [logout_user] *)

(** [session_id] is the header the view reads, under the name
    [session_id]; a WSGI header lookup does not tell [-] from [_]. *)
Definition logout_user (session_id : option string) : M W response :=
  redis_delete session_id ;;
  ret (Json (VDict [("logout-status", VBool true)])).

End OtherViews.

(** ** A scripted outside world

    The providers answer the [n]-th request sent by [reply n], and the
    clock shows [clock n] at its [n]-th reading.  The library functions are
    stand-ins that are exact on the inputs used below: [str] on text, [int]
    on plain decimal numerals, and timestamps written as seconds. *)
Module Sim.

Record world := World { sent : nat; ticks : nat }.

Definition digit (c : ascii) : option Z :=
  let n := Z.of_nat (nat_of_ascii c) in
  if (48 <=? n) && (n <=? 57) then Some (n - 48) else None.

Fixpoint digits (s : string) (acc : Z) : option Z :=
  match s with
  | EmptyString => Some acc
  | String c s' => d ← digit c; digits s' (10 * acc + d)
  end.

Definition decimal (s : string) : option Z :=
  match s with
  | EmptyString => None
  | String "-" s' => match s' with EmptyString => None | _ => Z.opp <$> digits s' 0 end
  | _ => digits s 0
  end.

Definition text (v : value) : string :=
  match v with
  | VStr s => s
  | _ => "None"
  end.

Definition host (reply : nat -> request -> option (option value))
    (clock : nat -> Q) : Host world :=
  {| send rq w := (reply (sent w) rq, World (S (sent w)) (ticks w));
     time_time w := (clock (ticks w), World (sent w) (S (ticks w)));
     environ_get _ := Some "secret";
     py_str := text;
     int_of_text := decimal;
     b64encode s := s;
     parse_timestamp s := inject_Z <$> decimal s |}.

Definition start (store : gmap string (gmap string value)) : state world :=
  State store (World 0 0) [].

End Sim.

(** ** Vocabulary of the statements *)



(** The last character of a text, [d] for the empty one. *)
Fixpoint last_char (s : string) (d : ascii) : ascii :=
  match s with
  | EmptyString => d
  | String c s' => last_char s' c
  end.

(** Two session records that differ at most in the app credential. *)
Definition agree (a b : gmap string value) : Prop :=
  forall k : string, k ≠ "spotify_access_token" -> b !! k = a !! k.


(** [c] keeps the property [P] of the state, whatever its outcome, and
    what it returns satisfies [Q]. *)
Definition keeps {W A : Type} (P : state W -> Prop) (c : M W A)
    (Q : A -> Prop) : Prop :=
  forall st, P st ->
    P (snd (c st)) /\ forall a, fst (c st) = Return a -> Q a.

(** [P] looks at the session store only. *)
Definition redis_only {W : Type} (P : state W -> Prop) : Prop :=
  forall st st', redis st' = redis st -> P st -> P st'.

(** A property of the state that survives every save, under [sid], of a
    record equal to [us0] up to the app credential. *)
Definition save_closed {W : Type} (sid : string) (us0 : gmap string value)
    (P : state W -> Prop) : Prop :=
  redis_only P /\
  forall st record, agree us0 record -> P st ->
    P (State (<[sid := record]> (redis st)) (world st) (trace st)).

(** [st'] comes after [st] with the same session store and possibly more
    requests sent. *)
Definition extends {W : Type} (st st' : state W) : Prop :=
  redis st' = redis st /\ exists new, trace st' = (new ++ trace st)%list.

(** A play is kept by the post-filter when its end is known and not
    before [start_time_unix]. *)
Definition ends_in_window `{Host W} (start_time_unix : Z) (music : value) : bool :=
  match end_of_play music with
  | Some e => negb (Py.Qlt_bool e (inject_Z start_time_unix))
  | None => false
  end.


(** [st'] comes after [st] by sending requests that all satisfy [P]. *)
Definition sends {W : Type} (P : request -> Prop) (st st' : state W) : Prop :=
  exists new, trace st' = (new ++ trace st)%list /\ Forall P new.

(** ** Concrete sessions and provider scripts *)
Module Cases.

(** A page of [size] activities, all of them runs. *)
Definition activity (n : nat) : value :=
  VDict [("id", VInt (Z.of_nat n)); ("type", VStr "Run")].
Definition page (size : nat) : value := VList (map activity (seq 0 size)).

(** A provider that hands out scripted pages in turn, whatever the
    request says. *)
Definition pages_reply (sizes : list nat) (n : nat) (_ : request)
  : option (option value) :=
  match sizes !! n with
  | Some k => Some (Some (page k))
  | None => None
  end.

(** A logged-in session whose credential expires at second 2000. *)
Definition athlete : gmap string value :=
  <["user_id" := VInt 7]>
    (<["access_token" := VStr "tok"]>
       (<["refresh_token" := VStr "ref"]>
          (<["access_token_expirytime" := VInt 2000]> ∅))).

(** The clock stands still at [t]. *)
Definition clock_at (t : Q) (_ : nat) : Q := t.

(** No provider answers. *)
Definition silent (_ : nat) (_ : request) : option (option value) := None.

(** Every request gets the same body. *)
Definition always (body : value) (_ : nat) (_ : request)
  : option (option value) := Some (Some body).

Definition pages_host : Host Sim.world :=
  Sim.host (pages_reply [200; 200; 150]%nat) (clock_at 1000).

(** The activity list asked by [athlete], with no date filter, from a
    provider that serves pages of 200, 200 and 150 activities. *)
Definition three_pages : outcome response * state Sim.world :=
  @get_user_activity_data _ pages_host 10 (Some "sid") None None
    (Sim.start {["sid" := athlete]}).

(** The listening-history provider knows the account [bob]. *)
Definition lastfm_host : Host Sim.world :=
  Sim.host (always (VDict [("user", VDict [("name", VStr "bob")])])) (clock_at 0).

(** [/retrieve_lastfm?username=bob] sent with the session id [abc], which
    the store does not know. *)
Definition link_without_login : outcome response * state Sim.world :=
  @retrieve_lastfm_user _ lastfm_host (Some "abc") (Some "bob") (Sim.start ∅).

(** The catalog provider's answer to a client-credentials exchange: a
    token that lives 3600 seconds. *)
Definition token_body : value :=
  VDict [("access_token", VStr "T"); ("token_type", VStr "Bearer");
         ("expires_in", VInt 3600)].



(** The fitness provider answers every request with this body. *)
Definition strava_body : value :=
  VDict [("id", VInt 5); ("name", VStr "Morning Run")].

Definition strava_host : Host Sim.world :=
  Sim.host (always strava_body) (clock_at 1000).

(** The fitness provider knows no activity: this is its answer. *)
Definition not_found_body : value :=
  VDict [("message", VStr "Record Not Found");
         ("errors", VList [VDict [("resource", VStr "Activity");
                                  ("code", VStr "not found")]])].

Definition not_found_host : Host Sim.world :=
  Sim.host (always not_found_body) (clock_at 1000).

(** [athlete] asks for the detail of the activity id [5_spotify]. *)
Definition detail_of_5_spotify : outcome response * state Sim.world :=
  @get_activity_strava_data _ not_found_host (Some "sid") (Some "5_spotify")
    (Sim.start {["sid" := athlete]}).

(** The record stored for the session after that request. *)
Definition after_detail : gmap string value :=
  default ∅ (redis (snd detail_of_5_spotify) !! "sid").

(** Then the same session asks for the catalog data of activity [5]. *)
Definition catalog_of_5 : outcome response * state Sim.world :=
  @get_music_artist_data _ not_found_host (Some "sid") (Some "5")
    (snd detail_of_5_spotify).

(** *** The catalog provider *)

(** A play as the listening-history provider reports it. *)
Definition played (name : string) (uts : Z) : value :=
  VDict [("name", VStr name);
         ("artist", VDict [("#text", VStr "Seed")]);
         ("album", VDict [("#text", VStr "Album")]);
         ("date", VDict [("uts", VInt uts)])].

(** A catalog track of the given artist, with cover art. *)
Definition catalog_track (name artist : string) : value :=
  VDict [("name", VStr name);
         ("preview_url", VNone);
         ("album",
           VDict [("artists", VList [VDict [("name", VStr artist)]]);
                  ("images", VList [VDict [("url", VStr "cover")]])])].

(** Fifteen recommendations, three of them by the seed artist. *)
Definition fifteen : list value :=
  [catalog_track "r01" "Seed"; catalog_track "r02" "Other";
   catalog_track "r03" "Other"; catalog_track "r04" "Other";
   catalog_track "r05" "Other"; catalog_track "r06" "Seed";
   catalog_track "r07" "Other"; catalog_track "r08" "Other";
   catalog_track "r09" "Other"; catalog_track "r10" "Other";
   catalog_track "r11" "Seed"; catalog_track "r12" "Other";
   catalog_track "r13" "Other"; catalog_track "r14" "Other";
   catalog_track "r15" "Other"].

(** The artist the catalog matches, with the given image list. *)
Definition seed_artist (images : value) : value :=
  VDict [("id", VStr "a1"); ("name", VStr "Seed"); ("images", images);
         ("genres", VList [VStr "rock"])].

(** The catalog provider: it answers by endpoint.  The track named
    [missing] is in none of its search results. *)
Definition catalog_reply (images : value) (missing : string) (_ : nat)
    (rq : request) : option (option value) :=
  let url := rq_url rq in
  if String.eqb url spotify_token_url then Some (Some token_body)
  else if String.eqb url "https://api.spotify.com/v1/search" then
    match Py.assoc_get "type" (rq_params rq) with
    | Some (VList [VStr "track"]) =>
        if Py.eq (default VNone (Py.assoc_get "q" (rq_params rq)))
                 (VStr ("Album Seed " +:+ missing))
        then Some (Some (VDict [("tracks", VDict [("items", VList [])])]))
        else Some (Some (VDict [("tracks",
                                  VDict [("items", VList [VDict [("id", VStr "m1")]])])]))
    | _ => Some (Some (VDict [("artists", VDict [("items", VList [seed_artist images])])]))
    end
  else if String.eqb url "https://api.spotify.com/v1/tracks/m1" then
    Some (Some (VDict [("name", VStr "Song"); ("preview_url", VStr "p")]))
  else if String.eqb url "https://api.spotify.com/v1/artists/a1/top-tracks" then
    Some (Some (VDict [("tracks",
                         VList [catalog_track "Song" "Seed";
                                VDict [("name", VStr "Hit"); ("preview_url", VNone)]])]))
  else if String.eqb url "https://api.spotify.com/v1/recommendations" then
    Some (Some (VDict [("tracks", VList fifteen)]))
  else None.

Definition cover : value := VList [VDict [("url", VStr "portrait")]].

Definition spotify_host (images : value) (missing : string) : Host Sim.world :=
  Sim.host (catalog_reply images missing) (clock_at 1000).



(** Three plays of activity [5]; the catalog does not know the second. *)
Definition first_play : value := played "Song" 1000.





(** *** The listening-history provider *)

(** Two plays around the start of an activity that begins at second
    10000: one 400 seconds before it, one 200 seconds before it. *)
Definition scrobbles : value :=
  VDict [("recenttracks",
           VDict [("track", VList [played "Early" 9600; played "Late" 9800])])].

(** The provider answers by method: the plays in [history], a duration of
    60000 ms for the track [Early], and [late_info] for any other track. *)
Definition lastfm_reply (history late_info : value) (_ : nat) (rq : request)
  : option (option value) :=
  match Py.assoc_get "method" (rq_params rq) with
  | Some (VStr "user.getrecenttracks") => Some (Some history)
  | Some (VStr "track.getInfo") =>
      if Py.eq (default VNone (Py.assoc_get "track" (rq_params rq))) (VStr "Early")
      then Some (Some (VDict [("track", VDict [("duration", VStr "60000")])]))
      else Some (Some late_info)
  | _ => None
  end.

Definition five_minutes : value :=
  VDict [("track", VDict [("name", VStr "Late"); ("duration", VStr "300000")])].

Definition history_host : Host Sim.world :=
  Sim.host (lastfm_reply scrobbles five_minutes) (clock_at 1000).

(** [athlete] with a linked account and the detail of activity [5], which
    starts at second 10000 and lasts half an hour, already cached. *)
Definition runner : gmap string value :=
  <["5_data" := VDict [("start_date", VStr "10000"); ("elapsed_time", VInt 1800)]]>
    (<["last_fm_username" := VStr "bob"]> athlete).

Definition history_run : outcome value * state Sim.world :=
  @music_block _ history_host (Some "sid") (Some "5") runner 10000 (VInt 11800)
    (Sim.start {["sid" := runner]}).

Definition history_music : value :=
  match fst history_run with
  | Return v => v
  | _ => VNone
  end.



(** [runner] with one play cached for activity [5]. *)
Definition listener : gmap string value :=
  <["5_music_data" := VList [first_play]]> runner.

(** The catalog has no image of the artist. *)
Definition faceless_host : Host Sim.world := spotify_host (VList []) "".

Definition faceless_run : outcome response * state Sim.world :=
  @get_music_artist_data _ faceless_host (Some "sid") (Some "5")
    (Sim.start {["sid" := listener]}).

(** *** The per-activity cache *)




(** [athlete] with a linked account and nothing cached. *)
Definition linked : gmap string value :=
  <["last_fm_username" := VStr "bob"]> athlete.

Definition detail_body : value :=
  VDict [("start_date", VStr "10000"); ("elapsed_time", VInt 1800)].




End Cases.

(** ** Vocabulary of the further statements *)

(** The request carries the id of a stored record that holds a
    [user_id]. *)
Definition authenticated {W : Type} (session_id : option string)
    (st : state W) : bool :=
  match session_id with
  | Some sid =>
      negb (String.eqb sid "")
      && match redis st !! sid with
         | Some us => Py.truthy (field us "user_id")
         | None => false
         end
  | None => false
  end.

(** Every stored record belongs to a logged-in user. *)
Definition records_have_user_id {W : Type} (st : state W) : Prop :=
  forall sid us, redis st !! sid = Some us ->
    Py.truthy (field us "user_id") = true.

(** Two session records that differ at most in the user credential. *)
Definition same_but_credential (a b : gmap string value) : Prop :=
  forall k : string,
    k ≠ "access_token" -> k ≠ "refresh_token" ->
    k ≠ "access_token_expirytime" -> b !! k = a !! k.

(** From the world [w] on, the provider answers the request [rq], sent
    again and again, with the [pages] in turn, and is then in the world
    [w']. *)
Fixpoint serves `{Host W} (rq : request) (w : W) (pages : list (list value))
    (w' : W) : Prop :=
  match pages with
  | [] => w' = w
  | p :: rest =>
      exists w1, send rq w = (Some (Some (VList p)), w1) /\ serves rq w1 rest w'
  end.

(** The activity is an object whose [type] is the text [Run]. *)
Definition typed_run (activity : value) : bool :=
  match Py.item activity "type" with
  | Some (VStr s) => String.eqb s "Run"
  | _ => false
  end.


(** A top track counts as another one when its name is not that of the
    current track. *)
Definition other_than (current : value) (t : value) : bool :=
  match Py.get t "name" with
  | Some name => negb (Py.eq name current)
  | None => false
  end.

(** Two session records that differ at most in the app credential and in
    the catalog data of the activity. *)
Definition same_but_catalog (activity_id : option string)
    (a b : gmap string value) : Prop :=
  forall k : string,
    k ≠ "spotify_access_token" -> k ≠ spotify_key activity_id ->
    b !! k = a !! k.

(** The request goes to the catalog provider: to its token endpoint or
    to its API. *)
Definition to_catalog (rq : request) : Prop :=
  rq_url rq = spotify_token_url
  \/ exists url_endpoint, rq_url rq = "https://api.spotify.com/v1/" +:+ url_endpoint.

(** The computation ends on its own: its outcome is a return or an
    exception, with any fuel. *)
Definition answers {W A : Type} (c : M W A) : Prop :=
  forall st, fst (c st) <> OutOfFuel.

(** ** Further sessions and provider scripts *)
Module Scenes.

(** A record as the link view stores it for a caller who never logged
    in. *)
Definition stray : gmap string value := {["last_fm_username" := VStr "bob"]}.

(** The fitness provider's answer to a code exchange or a refresh. *)
Definition token_triple : value :=
  VDict [("access_token", VStr "new"); ("refresh_token", VStr "ref2");
         ("expires_at", VInt 9000);
         ("athlete", VDict [("id", VInt 7); ("firstname", VStr "Ann")])].

(** The fitness provider grants every exchange; the clock shows [t]. *)
Definition exchange_host (t : Q) : Host Sim.world :=
  Sim.host (Cases.always token_triple) (Cases.clock_at t).

(** No provider answers, and the clock is past the expiry of
    [Cases.athlete]. *)
Definition down_host : Host Sim.world :=
  Sim.host Cases.silent (Cases.clock_at 3000).

(** The fitness provider has one page of two runs. *)
Definition short_host : Host Sim.world :=
  Sim.host (Cases.pages_reply [2%nat]) (Cases.clock_at 1000).

(** The store with [Cases.athlete] logged in under [sid]. *)
Definition logged_in : state Sim.world := Sim.start {["sid" := Cases.athlete]}.

(** The unfiltered activity list asked by [Cases.athlete]. *)
Definition short_first : outcome response * state Sim.world :=
  @get_user_activity_data _ short_host 3 (Some "sid") None None logged_in.

(** The enrichment of the two plays of [Cases.scrobbles]. *)
Definition two_plays : list value :=
  [Cases.played "Early" 9600; Cases.played "Late" 9800].

Definition enriched_run : outcome (list value) * state Sim.world :=
  @enrich _ Cases.history_host two_plays (Sim.start ∅).

Definition enriched : list value :=
  match fst enriched_run with
  | Return l => l
  | _ => []
  end.

(** The artist's top tracks, the current track [Song] among them. *)
Definition tops : list value :=
  [Cases.catalog_track "Song" "Seed"; Cases.catalog_track "Hit" "Seed"].

Definition hit_entry : value :=
  VDict [("image", VStr "cover"); ("preview_url", VNone);
         ("track_name", VStr "Hit"); ("artist", VStr "Seed")].

End Scenes.


(** ** Reasoning about handlers *)

Ltac munfold :=
  unfold requests, requests_call, json, now, redis_get, redis_set in *;
  unfold lift, try_except, bind, ret, raise, out_of_fuel in *.

Section Facts.
Context {W : Type} `{Host W}.

(** *** Runs and sessions *)

Lemma bind_eq {A B : Type} (c : M W A) (k : A -> M W B) (st : state W) :
  bind c k st =
    match c st with
    | (Return a, st') => k a st'
    | (Raise, st') => (Raise, st')
    | (OutOfFuel, st') => (OutOfFuel, st')
    end.
Proof. reflexivity. Qed.

Lemma Qlt_bool_iff (x y : Q) : Py.Qlt_bool x y = true <-> (x < y)%Q.
Proof.
  unfold Py.Qlt_bool. rewrite negb_true_iff.
  split; intros E.
  - apply Qnot_le_lt. intros L. apply Qle_bool_iff in L. congruence.
  - destruct (Qle_bool y x) eqn:B; [|reflexivity].
    apply Qle_bool_iff in B. exfalso. apply (Qlt_not_le _ _ E B).
Qed.

Lemma Qlt_bool_false_iff (x y : Q) : Py.Qlt_bool x y = false <-> (y <= x)%Q.
Proof.
  unfold Py.Qlt_bool. rewrite negb_false_iff. apply Qle_bool_iff.
Qed.

Lemma get_session_stored (sid : string) (us : session) (st : state W) :
  sid ≠ "" -> redis st !! sid = Some us ->
  get_session (Some sid) st = (Return us, st).
Proof.
  intros Hne Hin. unfold get_session.
  destruct (String.eqb sid "") eqn:E.
  - apply String.eqb_eq in E. contradiction.
  - simpl. munfold. rewrite Hin. reflexivity.
Qed.

Lemma get_session_total (session_id : option string) (st : state W) :
  exists us, get_session session_id st = (Return us, st) /\
    (us = ∅ \/ exists sid, session_id = Some sid /\ redis st !! sid = Some us).
Proof.
  unfold get_session. destruct session_id as [sid|].
  - destruct (String.eqb sid ""); simpl.
    + exists ∅. split; [reflexivity|left; reflexivity].
    + munfold. destruct (redis st !! sid) as [us|] eqn:E.
      * exists us. split; [reflexivity|right; exists sid; split; [reflexivity|exact E]].
      * exists ∅. split; [reflexivity|left; reflexivity].
  - exists ∅. split; [reflexivity|left; reflexivity].
Qed.

(** An absent, empty or unknown session id loads the empty record, and
    the load never raises. *)
Lemma get_session_unauthenticated (session_id : option string) (st : state W) :
  session_id = None \/ session_id = Some ""
  \/ (exists sid, session_id = Some sid /\ redis st !! sid = None) ->
  get_session session_id st = (Return ∅, st).
Proof.
  intros [->|[->|(sid & -> & Hnone)]]; try reflexivity.
  unfold get_session. destruct (String.eqb sid ""); simpl; [reflexivity|].
  munfold. rewrite Hnone. reflexivity.
Qed.

(** *** The activity list *)

Lemma fetch_activities_same_request (fuel : nat) (us : session)
    (payload : list (string * value)) (acc : list value) (pn : Z)
    (st : state W) :
  exists new,
    trace (snd (fetch_activities fuel us payload acc pn st)) = (new ++ trace st)%list /\
    Forall (fun rq => rq = Request GET activities_url payload [] (bearer us)) new.
Proof.
  set (rq := Request GET activities_url payload [] (bearer us)).
  revert acc pn st. induction fuel as [|fuel IH]; intros acc pn st.
  - exists []. split; [reflexivity|constructor].
  - simpl. munfold. fold rq.
    assert (Hone : exists new, rq :: trace st = (new ++ trace st)%list /\
                               Forall (fun r => r = rq) new).
    { exists [rq]. split; [reflexivity|]. repeat constructor. }
    destruct (send rq (world st)) as [[[v|]|] w] eqn:Es; simpl;
      try exact Hone.
    destruct (Py.iter v) as [items|] eqn:Ei; simpl; try exact Hone.
    destruct (Py.len v) as [n|]; simpl; try exact Hone.
    destruct (negb (n =? 200)); simpl; try exact Hone.
    destruct (IH (acc ++ items)%list (pn + 1)
                (State (redis st) w (rq :: trace st))) as (new & Ht & Hall).
    exists (new ++ [rq])%list. split.
    + rewrite Ht. simpl. rewrite <- app_assoc. reflexivity.
    + apply Forall_app. split; [exact Hall|repeat constructor].
Qed.

Lemma fetch_activities_full_first_page_loops (fuel : nat) (us : session)
    (payload : list (string * value)) (acc : list value) (pn : Z)
    (st : state W) :
  (forall w, exists items w',
      send (Request GET activities_url payload [] (bearer us)) w
        = (Some (Some (VList items)), w') /\ length items = 200%nat) ->
  fst (fetch_activities fuel us payload acc pn st) = OutOfFuel.
Proof.
  intros Hfull. revert acc pn st.
  induction fuel as [|fuel IH]; intros acc pn st; [reflexivity|].
  simpl. munfold.
  destruct (Hfull (world st)) as (items & w' & Es & Hlen).
  rewrite Es. simpl. rewrite Hlen. simpl. apply IH.
Qed.

(** *** The user credential *)

(** C2, amended.  For a session that holds the credential triple, with the
    clock reading [t] and the stored expiry [e]: when [e < t] the check
    sends exactly one request, the refresh exchange; when [t <= e] it sends
    nothing, changes nothing in the store and returns. *)
Theorem check_access_token_status_refresh_after_expiry
    (st : state W) (sid : string) (us : session) (e t : Q) (w' : W) :
  sid ≠ "" ->
  redis st !! sid = Some us ->
  Py.truthy (field us "user_id") = true ->
  Py.num (field us "access_token_expirytime") = Some e ->
  time_time (world st) = (t, w') ->
  ((e < t)%Q ->
     trace (snd (check_access_token_status (Some sid) st))
       = refresh_request us :: trace st) /\
  ((t <= e)%Q ->
     check_access_token_status (Some sid) st
       = (Return tt, State (redis st) w' (trace st))).
Proof.
  intros Hne Hin Huid Hnum Htime.
  assert (Hrun : check_access_token_status (Some sid) st =
            (if Py.Qlt_bool e t then
               try_except
                 (let* response_data := requests (refresh_request us) in
                  let* access_token := lift (Py.item response_data "access_token") in
                  let user_session := <["access_token" := access_token]> us in
                  let* refresh_token := lift (Py.item response_data "refresh_token") in
                  let user_session := <["refresh_token" := refresh_token]> user_session in
                  let* expires_at := lift (Py.item response_data "expires_at") in
                  let user_session := <["access_token_expirytime" := expires_at]> user_session in
                  redis_set (Some sid) user_session)
                 ret raise
             else ret tt) (State (redis st) w' (trace st))).
  { unfold check_access_token_status.
    rewrite bind_eq, (get_session_stored _ _ _ Hne Hin), Huid.
    rewrite bind_eq. unfold now at 1. rewrite Htime.
    rewrite bind_eq, Hnum. reflexivity. }
  rewrite Hrun. split; intros Hlt.
  - apply Qlt_bool_iff in Hlt. rewrite Hlt. munfold. simpl.
    destruct (send (refresh_request us) w') as [[[v|]|] w2]; simpl; try reflexivity.
    repeat (match goal with
            | |- context [match Py.item ?a ?b with _ => _ end] =>
                destruct (Py.item a b); simpl
            end); reflexivity.
  - apply Qlt_bool_false_iff in Hlt. rewrite Hlt. reflexivity.
Qed.
(** *** Linking the listening-history account *)

Lemma retrieve_lastfm_user_unknown_session (st : state W) (sid : string)
    (username : option string) (reply err : value) (w' : W) :
  sid ≠ "" ->
  redis st !! sid = None ->
  send (user_info_request username) (world st) = (Some (Some reply), w') ->
  Py.get reply "error" = Some err ->
  Py.truthy err = false ->
  redis (snd (retrieve_lastfm_user (Some sid) username st)) !! sid
    = Some {["last_fm_username" := arg_value username]}.
Proof.
  intros Hne Hnone Hsend Herr Hfalse.
  unfold retrieve_lastfm_user, get_session.
  destruct (String.eqb sid "") eqn:E; [apply String.eqb_eq in E; contradiction|].
  munfold. simpl. rewrite Hnone, Hsend. simpl. rewrite Herr, Hfalse. simpl.
  rewrite lookup_insert_eq. reflexivity.
Qed.

(** *** The app credential *)






(** *** The catalog view without a track list *)

(** C10, amended.  In an authenticated session with no
    [{activity_id}_music_data], the catalog view sends no request and
    writes nothing: the state is left as it was.  Its answer is
    [{error_status: true}], unless [{activity_id}_spotify_data] holds a
    non-empty value, which is then returned as it is. *)
Theorem get_music_artist_data_without_music_data (st : state W)
    (sid : string) (activity_id : option string) (us : session) :
  sid ≠ "" ->
  redis st !! sid = Some us ->
  Py.truthy (field us "user_id") = true ->
  us !! music_key activity_id = None ->
  get_music_artist_data (Some sid) activity_id st
    = (Return (if Py.truthy (field us (spotify_key activity_id))
               then Json (field us (spotify_key activity_id))
               else error_status_true),
       st).
Proof.
  intros Hne Hin Huid Hmusic.
  unfold get_music_artist_data.
  rewrite bind_eq, (get_session_stored _ _ _ Hne Hin), Huid.
  unfold try_except, artist_block.
  destruct (Py.truthy (field us (spotify_key activity_id))); [reflexivity|].
  unfold field at 1. rewrite Hmusic. reflexivity.
Qed.

(** *** Inverting a run that returned *)

Lemma bind_Return_inv {A B : Type} (c : M W A) (k : A -> M W B)
    (st st2 : state W) (b : B) :
  bind c k st = (Return b, st2) ->
  exists a st1, c st = (Return a, st1) /\ k a st1 = (Return b, st2).
Proof.
  rewrite bind_eq. destruct (c st) as [[a| |] st1]; intros E; try discriminate.
  exists a, st1. split; [reflexivity|exact E].
Qed.

Lemma lift_Return_inv {A : Type} (o : option A) (st st1 : state W) (a : A) :
  lift o st = (Return a, st1) -> o = Some a /\ st1 = st.
Proof.
  destruct o; unfold lift, ret, raise; intros E; inversion E; auto.
Qed.

Lemma ret_Return_inv {A : Type} (a b : A) (st st1 : state W) :
  ret a st = (Return b, st1) -> a = b /\ st1 = st.
Proof. unfold ret. intros E. inversion E. auto. Qed.

(** *** Recommendations *)







(** *** What the catalog loop leaves in the store *)

Lemma keeps_bind {A B : Type} (P : state W -> Prop) (c : M W A)
    (k : A -> M W B) (Q : A -> Prop) (Q' : B -> Prop) :
  keeps P c Q ->
  (forall a, Q a -> keeps P (k a) Q') ->
  keeps P (bind c k) Q'.
Proof.
  intros Hc Hk st HP. rewrite bind_eq.
  destruct (Hc st HP) as [HP' HQ].
  destruct (c st) as [[a| |] st']; simpl in *.
  - apply (Hk a (HQ a eq_refl) st' HP').
  - split; [exact HP'|discriminate].
  - split; [exact HP'|discriminate].
Qed.

Lemma keeps_ret {A : Type} (P : state W -> Prop) (a : A) (Q : A -> Prop) :
  Q a -> keeps P (ret a) Q.
Proof.
  intros HQ st HP. split; [exact HP|]. intros b E. inversion E; subst. exact HQ.
Qed.

Lemma keeps_lift {A : Type} (P : state W -> Prop) (o : option A) :
  keeps P (lift o) (fun a => o = Some a).
Proof.
  intros st HP. destruct o as [a|]; simpl; (split; [exact HP|]);
    intros b E; inversion E; reflexivity.
Qed.

Lemma keeps_now (P : state W -> Prop) :
  redis_only P -> keeps P now (fun _ => True).
Proof.
  intros HR st HP. unfold now. destruct (time_time (world st)) as [t w]. simpl.
  split; [|auto]. apply (HR st); [reflexivity|exact HP].
Qed.

Lemma keeps_requests_call (P : state W -> Prop) (rq : request) :
  redis_only P -> keeps P (requests_call rq) (fun _ => True).
Proof.
  intros HR st HP. unfold requests_call.
  destruct (send rq (world st)) as [[r|] w]; simpl;
    (split; [|auto]); apply (HR st); try reflexivity; exact HP.
Qed.

Lemma keeps_requests (P : state W -> Prop) (rq : request) :
  redis_only P -> keeps P (requests rq) (fun _ => True).
Proof.
  intros HR. unfold requests, json.
  eapply keeps_bind; [apply keeps_requests_call; exact HR|].
  intros r _ st HP. destruct (keeps_lift P r st HP) as [HP' _].
  split; [exact HP'|auto].
Qed.

Lemma keeps_redis_set (P : state W -> Prop) (sid : string) (record : session) :
  (forall st, P st -> P (State (<[sid := record]> (redis st)) (world st) (trace st))) ->
  keeps P (redis_set (Some sid) record) (fun _ => True).
Proof.
  intros Hset st HP. simpl. split; [apply Hset; exact HP|auto].
Qed.

Lemma last_char_append (s1 s2 : string) (c d : ascii) :
  last_char (s1 +:+ String c s2) d = last_char s2 c.
Proof.
  revert d. induction s1 as [|a s1 IH]; intros d; simpl; [reflexivity|apply IH].
Qed.


Lemma spotify_key_not_user_id (activity_id : option string) :
  spotify_key activity_id ≠ "user_id".
Proof.
  unfold spotify_key. intros E.
  apply (f_equal (fun s => last_char s "x")) in E.
  rewrite last_char_append in E. discriminate E.
Qed.

Lemma agree_refl (a : session) : agree a a.
Proof. intros k _. reflexivity. Qed.

Lemma agree_trans (a b c : session) : agree a b -> agree b c -> agree a c.
Proof. intros Hab Hbc k Hk. rewrite (Hbc k Hk). apply Hab. exact Hk. Qed.

Lemma agree_credential (a : session) (v : value) :
  agree a (<["spotify_access_token" := v]> a).
Proof. intros k Hk. apply lookup_insert_ne. congruence. Qed.




Ltac keeps_step :=
  eapply keeps_bind;
  [ first [ apply keeps_lift
          | apply keeps_now; assumption
          | apply keeps_requests_call; assumption
          | apply keeps_requests; assumption ]
  | intros ? _ ].

(** The credential check leaves the stored record, and the caller's
    record, as they were up to the credential itself. *)
Lemma refresh_spotify_access_token_agree (P : state W -> Prop) (sid : string)
    (us0 us : session) :
  save_closed sid us0 P ->
  agree us0 us ->
  keeps P (refresh_spotify_access_token (Some sid) us)
    (fun r => agree us0 (snd r)).
Proof.
  intros [HR Hsave] Hagree. unfold refresh_spotify_access_token.
  eapply keeps_bind with (Q := fun _ => True).
  - unfold spotify_token_valid.
    destruct (Py.truthy (field us "spotify_access_token")).
    + keeps_step. keeps_step. keeps_step. apply keeps_ret. exact I.
    + apply keeps_ret. exact I.
  - intros valid _. destruct valid.
    + keeps_step. apply keeps_ret. exact Hagree.
    + keeps_step. keeps_step. keeps_step.
      unfold json. keeps_step. keeps_step. keeps_step. keeps_step.
      eapply keeps_bind.
      * apply keeps_redis_set. intros st HP. apply Hsave; [|exact HP].
        eapply agree_trans; [exact Hagree|apply agree_credential].
      * intros _ _. apply keeps_ret. simpl.
        eapply agree_trans; [exact Hagree|apply agree_credential].
Qed.

Lemma retrieve_data_from_spotify_agree (P : state W -> Prop) (sid : string)
    (us0 us : session) (url_endpoint : string) (params : list (string * value)) :
  save_closed sid us0 P ->
  agree us0 us ->
  keeps P (retrieve_data_from_spotify (Some sid) us url_endpoint params)
    (fun r => agree us0 (snd r)).
Proof.
  intros HP Hagree. unfold retrieve_data_from_spotify.
  eapply keeps_bind; [exact (refresh_spotify_access_token_agree P sid us0 us HP Hagree)|].
  intros [token us1] Hus1. simpl in Hus1. destruct HP as [HR _].
  keeps_step. keeps_step. apply keeps_ret. exact Hus1.
Qed.

Lemma cross_reference_agree (P : state W -> Prop) (sid : string)
    (us0 us : session) (track : value) :
  save_closed sid us0 P ->
  agree us0 us ->
  keeps P (cross_reference (Some sid) us track)
    (fun r => agree us0 (snd r)).
Proof.
  intros HP Hagree. pose proof HP as [HR _]. unfold cross_reference.
  keeps_step. keeps_step.
  eapply keeps_bind; [exact (retrieve_data_from_spotify_agree P sid us0 us _ _ HP Hagree)|].
  intros [found us1] Ha1. simpl in Ha1.
  keeps_step. keeps_step.
  eapply keeps_bind; [exact (retrieve_data_from_spotify_agree P sid us0 us1 _ _ HP Ha1)|].
  intros [found2 us2] Ha2. simpl in Ha2.
  keeps_step. keeps_step.
  eapply keeps_bind; [exact (retrieve_data_from_spotify_agree P sid us0 us2 _ _ HP Ha2)|].
  intros [music_data us3] Ha3. simpl in Ha3.
  eapply keeps_bind; [exact (retrieve_data_from_spotify_agree P sid us0 us3 _ _ HP Ha3)|].
  intros [top us4] Ha4. simpl in Ha4.
  keeps_step. keeps_step. keeps_step.
  eapply keeps_bind; [exact (retrieve_data_from_spotify_agree P sid us0 us4 _ _ HP Ha4)|].
  intros [rec us5] Ha5. simpl in Ha5.
  keeps_step. keeps_step. keeps_step. keeps_step.
  apply keeps_ret. exact Ha5.
Qed.




(** *** The listening history *)

Lemma extends_refl (st : state W) : extends st st.
Proof. split; [reflexivity|]. exists []. reflexivity. Qed.

Lemma extends_trans (st1 st2 st3 : state W) :
  extends st1 st2 -> extends st2 st3 -> extends st1 st3.
Proof.
  intros [R1 [n1 T1]] [R2 [n2 T2]]. split; [congruence|].
  exists (n2 ++ n1)%list. rewrite T2, T1, app_assoc. reflexivity.
Qed.

Lemma bind_extends {A B : Type} (c : M W A) (k : A -> M W B) (st : state W) :
  extends st (snd (c st)) ->
  (forall a st1, extends st1 (snd (k a st1))) ->
  extends st (snd (bind c k st)).
Proof.
  intros Hc Hk. rewrite bind_eq. destruct (c st) as [[a| |] st1]; simpl in *;
    try exact Hc.
  eapply extends_trans; [exact Hc|apply Hk].
Qed.

Lemma lift_extends {A : Type} (o : option A) (st : state W) :
  extends st (snd (lift o st)).
Proof. destruct o; apply extends_refl. Qed.

Lemma requests_extends (rq : request) (st : state W) :
  extends st (snd (requests rq st)).
Proof.
  munfold. destruct (send rq (world st)) as [[[v|]|] w]; simpl;
    (split; [reflexivity|exists [rq]; reflexivity]).
Qed.

Lemma enrich_extends (music_list : list value) (st : state W) :
  extends st (snd (enrich music_list st)).
Proof.
  revert st. induction music_list as [|track rest IH]; intros st.
  - apply extends_refl.
  - cbn [enrich].
    repeat (apply bind_extends; [first [apply lift_extends|apply requests_extends]|];
            intros ? ?).
    apply bind_extends; [apply IH|]. intros ? ?. apply extends_refl.
Qed.

Lemma keep_if_filter (test : value -> option bool) (l r : list value) :
  Py.keep_if test l = Some r ->
  Forall (fun x => is_Some (test x)) l
  /\ r = List.filter (fun x => default false (test x)) l.
Proof.
  revert r. induction l as [|x l IH]; intros r E.
  - inversion E. split; [constructor|reflexivity].
  - cbn [Py.keep_if] in E.
    destruct (test x) as [b|] eqn:Eb; [|discriminate].
    cbn [mbind option_bind] in E.
    destruct (Py.keep_if test l) as [r'|]; [|discriminate].
    destruct (IH r' eq_refl) as [Hall Hr].
    cbn [mbind option_bind] in E. inversion E; subst r.
    split.
    + constructor; [rewrite Eb; eexists; reflexivity|exact Hall].
    + cbn [List.filter]. rewrite Eb. simpl. destruct b; rewrite <- Hr; reflexivity.
Qed.

Lemma still_playing_ends_in_window (start_time_unix : Z) (music : value) :
  default false (still_playing start_time_unix music)
    = ends_in_window start_time_unix music.
Proof.
  unfold still_playing, ends_in_window.
  destruct (end_of_play music); reflexivity.
Qed.

Lemma end_of_play_fields (music duration date uts : value) (d u : Z) :
  Py.item music "duration" = Some duration ->
  py_int duration = Some d ->
  Py.item music "date" = Some date ->
  Py.item date "uts" = Some uts ->
  py_int uts = Some u ->
  end_of_play music = Some (inject_Z d / 1000 + inject_Z u)%Q.
Proof.
  intros H1 H2 H3 H4 H5. unfold end_of_play.
  rewrite H1. simpl. rewrite H2. simpl. rewrite H3. simpl.
  rewrite H4. simpl. rewrite H5. reflexivity.
Qed.

Lemma music_block_returns (sid : string) (activity_id : option string)
    (us : session) (start_time_unix : Z) (end_time_unix music : value)
    (st st' : state W) :
  music_block (Some sid) activity_id us start_time_unix end_time_unix st
    = (Return music, st') ->
  exists (reply recenttracks track : value) (tracks enriched final : list value)
         (later : list request) (st1 st2 : state W),
    requests (recent_tracks_request us start_time_unix end_time_unix) st
      = (Return reply, st1)
    /\ Py.get reply "recenttracks" = Some recenttracks
    /\ Py.get recenttracks "track" = Some track
    /\ Py.keep_if not_now_playing
         (match track with VList l => l | other => [other] end) = Some tracks
    /\ enrich tracks st1 = (Return enriched, st2)
    /\ Py.keep_if (still_playing start_time_unix) enriched = Some final
    /\ trace st' =
         (later ++ recent_tracks_request us start_time_unix end_time_unix
                :: trace st)%list
    /\ music = VList final
    /\ redis st' !! sid = Some (<[music_key activity_id := VList final]> us).
Proof.
  intros E. unfold music_block in E.
  apply bind_Return_inv in E as (reply & st1 & E1 & E).
  apply bind_Return_inv in E as (recenttracks & s1 & E2 & E).
  apply lift_Return_inv in E2 as [Erecent ->].
  apply bind_Return_inv in E as (track & s1 & E2 & E).
  apply lift_Return_inv in E2 as [Etrack ->].
  apply bind_Return_inv in E as (tracks & s1 & E2 & E).
  apply lift_Return_inv in E2 as [Etracks ->].
  apply bind_Return_inv in E as (enriched & st2 & E2 & E).
  apply bind_Return_inv in E as (final & s1 & E3 & E).
  apply lift_Return_inv in E3 as [Efinal ->].
  apply bind_Return_inv in E as ([] & st3 & E3 & E).
  apply ret_Return_inv in E as [<- ->].
  simpl in E3. inversion E3; subst st3; clear E3.
  assert (Ht1 : trace st1 =
                  recent_tracks_request us start_time_unix end_time_unix :: trace st).
  { revert E1. munfold.
    destruct (send _ (world st)) as [[[v|]|] w]; simpl; intros E1;
      inversion E1; subst; auto. }
  pose proof (enrich_extends tracks st1) as Hext. rewrite E2 in Hext.
  destruct Hext as [Hr2 [later Ht2]]. simpl in Hr2, Ht2.
  exists reply, recenttracks, track, tracks, enriched, final, later, st1, st2.
  split; [exact E1|]. split; [exact Erecent|]. split; [exact Etrack|].
  split; [exact Etracks|]. split; [exact E2|]. split; [exact Efinal|].
  split; [simpl; rewrite Ht2, Ht1; reflexivity|].
  split; [reflexivity|]. simpl. apply lookup_insert_eq.
Qed.

(** C6.  When the listening-history block goes through, the first request
    it sent asked for the plays from [start_time_unix - 300] to
    [end_time_unix].  The plays of the reply that are not marked as now
    playing are enriched, and the list the block returns and caches under
    [{activity_id}_music_data] is the enriched list without exactly those
    plays whose timestamp plus duration in seconds is strictly less than
    [start_time_unix].  A play at [start - 400] that lasts 60000 ms is
    dropped; a play at [start - 200] that lasts 300000 ms is kept. *)
Theorem music_block_window_and_post_filter (sid : string)
    (activity_id : option string) (us : session) (start_time_unix : Z)
    (end_time_unix music : value) (st st' : state W) :
  music_block (Some sid) activity_id us start_time_unix end_time_unix st
    = (Return music, st') ->
  (exists (reply recenttracks track : value) (tracks enriched final : list value)
          (later : list request) (st1 st2 : state W),
      requests (recent_tracks_request us start_time_unix end_time_unix) st
        = (Return reply, st1)
      /\ Py.assoc_get "from"
           (rq_params (recent_tracks_request us start_time_unix end_time_unix))
         = Some (VInt (start_time_unix - 300))
      /\ Py.assoc_get "to"
           (rq_params (recent_tracks_request us start_time_unix end_time_unix))
         = Some end_time_unix
      /\ trace st' =
           (later ++ recent_tracks_request us start_time_unix end_time_unix
                  :: trace st)%list
      /\ Py.get reply "recenttracks" = Some recenttracks
      /\ Py.get recenttracks "track" = Some track
      /\ Py.keep_if not_now_playing
           (match track with VList l => l | other => [other] end) = Some tracks
      /\ enrich tracks st1 = (Return enriched, st2)
      /\ final = List.filter (ends_in_window start_time_unix) enriched
      /\ (forall m, In m enriched ->
            exists e, end_of_play m = Some e
                      /\ (In m final <-> ~ (e < inject_Z start_time_unix)%Q))
      /\ music = VList final
      /\ redis st' !! sid = Some (<[music_key activity_id := VList final]> us))
  /\ (forall m duration date uts,
        Py.item m "duration" = Some duration -> py_int duration = Some 60000 ->
        Py.item m "date" = Some date -> Py.item date "uts" = Some uts ->
        py_int uts = Some (start_time_unix - 400) ->
        still_playing start_time_unix m = Some false)
  /\ (forall m duration date uts,
        Py.item m "duration" = Some duration -> py_int duration = Some 300000 ->
        Py.item m "date" = Some date -> Py.item date "uts" = Some uts ->
        py_int uts = Some (start_time_unix - 200) ->
        still_playing start_time_unix m = Some true).
Proof.
  intros E. split; [|split].
  - destruct (music_block_returns _ _ _ _ _ _ _ _ E)
      as (reply & recenttracks & track & tracks & enriched & final & later
          & st1 & st2 & Hreq & Hrecent & Htrack & Htracks & Henrich & Efinal
          & Htrace & Hmusic & Hredis).
    destruct (keep_if_filter _ _ _ Efinal) as [Hall Hfilter].
    assert (Hfinal : final = List.filter (ends_in_window start_time_unix) enriched).
    { rewrite Hfilter. apply List.filter_ext. intros m.
      apply still_playing_ends_in_window. }
    exists reply, recenttracks, track, tracks, enriched, final, later, st1, st2.
    split; [exact Hreq|]. split; [reflexivity|]. split; [reflexivity|].
    split; [exact Htrace|]. split; [exact Hrecent|]. split; [exact Htrack|].
    split; [exact Htracks|]. split; [exact Henrich|]. split; [exact Hfinal|].
    split; [|split; [exact Hmusic|exact Hredis]].
    intros m Hin.
    rewrite List.Forall_forall in Hall. destruct (Hall m Hin) as [b Hb].
    unfold still_playing in Hb.
    destruct (end_of_play m) as [e|] eqn:Ee; [|discriminate].
    exists e. split; [reflexivity|].
    rewrite Hfinal, List.filter_In. unfold ends_in_window. rewrite Ee.
    rewrite negb_true_iff. split.
    + intros [_ Hk] Hlt. apply Qlt_bool_iff in Hlt. congruence.
    + intros Hnlt. split; [exact Hin|].
      destruct (Py.Qlt_bool e (inject_Z start_time_unix)) eqn:Hq; [|reflexivity].
      apply Qlt_bool_iff in Hq. contradiction.
  - intros m duration date uts H1 H2 H3 H4 H5. unfold still_playing.
    rewrite (end_of_play_fields _ _ _ _ _ _ H1 H2 H3 H4 H5). simpl.
    f_equal. apply negb_false_iff, Qlt_bool_iff.
    unfold Qlt. simpl. lia.
  - intros m duration date uts H1 H2 H3 H4 H5. unfold still_playing.
    rewrite (end_of_play_fields _ _ _ _ _ _ H1 H2 H3 H4 H5). simpl.
    f_equal. apply negb_true_iff, Qlt_bool_false_iff.
    unfold Qle. simpl. lia.
Qed.

(** *** Optional fields *)

Lemma top_tracks_cons (t : value) (l : list value) (music_data artist_data : value) :
  top_tracks (t :: l) music_data artist_data =
    (name ← Py.get t "name";
     current ← Py.get music_data "name";
     entry ←
       (if negb (Py.eq name current) then
          artist ← Py.get artist_data "name";
          e ← track_relevant_data t artist;
          Some [e]
        else Some []);
     others ← top_tracks l music_data artist_data;
     Some (entry ++ others)%list).
Proof. reflexivity. Qed.







Lemma keep_if_raises (test : value -> option bool) (l : list value) (m : value) :
  In m l -> test m = None -> Py.keep_if test l = None.
Proof.
  intros Hin Hm. induction l as [|x l IH]; [contradiction|].
  cbn [Py.keep_if]. destruct Hin as [->|Hin].
  - rewrite Hm. reflexivity.
  - destruct (test x); [|reflexivity]. cbn [mbind option_bind].
    rewrite (IH Hin). reflexivity.
Qed.


(** *** The per-activity cache *)

Lemma sends_refl (P : request -> Prop) (st : state W) : sends P st st.
Proof. exists []. split; [reflexivity|constructor]. Qed.

Lemma sends_trans (P : request -> Prop) (st1 st2 st3 : state W) :
  sends P st1 st2 -> sends P st2 st3 -> sends P st1 st3.
Proof.
  intros [n1 [T1 F1]] [n2 [T2 F2]]. exists (n2 ++ n1)%list. split.
  - rewrite T2, T1, app_assoc. reflexivity.
  - apply Forall_app. split; assumption.
Qed.

Lemma bind_sends {A B : Type} (P : request -> Prop) (c : M W A)
    (k : A -> M W B) (st : state W) :
  sends P st (snd (c st)) ->
  (forall a st1, c st = (Return a, st1) -> sends P st1 (snd (k a st1))) ->
  sends P st (snd (bind c k st)).
Proof.
  intros Hc Hk. rewrite bind_eq. destruct (c st) as [[a| |] st1] eqn:E; simpl in *;
    try exact Hc.
  eapply sends_trans; [exact Hc|apply Hk; reflexivity].
Qed.

Lemma lift_sends {A : Type} (P : request -> Prop) (o : option A) (st : state W) :
  sends P st (snd (lift o st)).
Proof. destruct o; apply sends_refl. Qed.

Lemma requests_sends (P : request -> Prop) (rq : request) (st : state W) :
  P rq -> sends P st (snd (requests rq st)).
Proof.
  intros HP. munfold. destruct (send rq (world st)) as [[[v|]|] w]; simpl;
    (exists [rq]; split; [reflexivity|repeat constructor; exact HP]).
Qed.

Lemma redis_set_sends (P : request -> Prop) (key : option string)
    (record : session) (st : state W) :
  sends P st (snd (redis_set key record st)).
Proof.
  destruct key; (exists []; split; [reflexivity|constructor]).
Qed.

Lemma enrich_sends (music_list : list value) (st : state W) :
  sends (fun rq => rq_url rq = lastfm_url) st (snd (enrich music_list st)).
Proof.
  revert st. induction music_list as [|track rest IH]; intros st.
  - apply sends_refl.
  - cbn [enrich].
    repeat (apply bind_sends;
            [first [apply lift_sends|apply requests_sends; reflexivity]|];
            intros ? ? _).
    apply bind_sends; [apply IH|]. intros ? ? _. apply sends_refl.
Qed.


Lemma data_key_not_streams_key (activity_id : option string) :
  data_key activity_id ≠ streams_key activity_id.
Proof.
  unfold data_key, streams_key. intros E.
  apply (f_equal (fun s => last_char s "x")) in E.
  rewrite !last_char_append in E. discriminate E.
Qed.

Lemma field_insert_ne (us : session) (k k' : string) (v : value) :
  k ≠ k' -> field (<[k := v]> us) k' = field us k'.
Proof. intros Hne. unfold field. rewrite lookup_insert_ne by exact Hne. reflexivity. Qed.

Lemma field_insert_eq (us : session) (k : string) (v : value) :
  field (<[k := v]> us) k = v.
Proof. unfold field. rewrite lookup_insert_eq. reflexivity. Qed.







End Facts.

(** ** The activity list *)

(** C1, as the code runs it.  The provider serves pages of 200, 200 and
    150 activities.  The view sends three requests, each for 200 items per
    page, and answers with the 550 activities; but all three requests ask
    for page 1: the page number that the loop increments is never put
    into the request. *)
Theorem get_user_activity_data_asks_page_1_each_round :
  map (fun rq => (Py.assoc_get "per_page" (rq_params rq),
                  Py.assoc_get "page" (rq_params rq)))
      (rev (trace (snd Cases.three_pages)))
    = [(Some (VInt 200), Some (VInt 1));
       (Some (VInt 200), Some (VInt 1));
       (Some (VInt 200), Some (VInt 1))]
  /\ exists run_activities,
       fst Cases.three_pages
         = Return (Json (VDict [("error_status", VBool false);
                                ("athlete_running_data", VList run_activities)]))
       /\ length run_activities = 550%nat.
Proof.
  split.
  - vm_compute. reflexivity.
  - eexists. split.
    + vm_compute. reflexivity.
    + vm_compute. reflexivity.
Qed.

(** ** The user credential *)

(** C2, the case that separates the claim from the code: at the very
    second of expiry ([now = access_token_expirytime = 2000]) no refresh
    request is sent. *)
Lemma check_access_token_status_no_refresh_at_expiry :
  let host := Sim.host Cases.silent (Cases.clock_at 2000) in
  let run := @check_access_token_status _ host (Some "sid")
               (Sim.start {["sid" := Cases.athlete]}) in
  Py.num (field Cases.athlete "access_token_expirytime") = Some (inject_Z 2000)
  /\ (inject_Z 2000 <= Cases.clock_at 2000 0%nat)%Q
  /\ fst run = Return tt
  /\ trace (snd run) = [].
Proof.
  repeat split; vm_compute; congruence.
Qed.

(** One second after the expiry the refresh is sent; an hour before it, nothing is. *)
Lemma check_access_token_status_refresh_after_expiry_witness :
  trace (snd (@check_access_token_status _
                (Sim.host Cases.silent (Cases.clock_at (2000 + 1))) (Some "sid")
                (Sim.start {["sid" := Cases.athlete]})))
    = [@refresh_request _ (Sim.host Cases.silent (Cases.clock_at (2000 + 1)))
         Cases.athlete]
  /\ @check_access_token_status _
       (Sim.host Cases.silent (Cases.clock_at (2000 - 3600))) (Some "sid")
       (Sim.start {["sid" := Cases.athlete]})
     = (Return tt, State {["sid" := Cases.athlete]} (Sim.World 0 1) []).
Proof.
  split.
  - apply (proj1 (@check_access_token_status_refresh_after_expiry _
                    (Sim.host Cases.silent (Cases.clock_at (2000 + 1)))
                    (Sim.start {["sid" := Cases.athlete]}) "sid"
                    Cases.athlete (inject_Z 2000) (2000 + 1)%Q (Sim.World 0 1)
                    ltac:(discriminate) eq_refl eq_refl eq_refl eq_refl)).
    reflexivity.
  - apply (proj2 (@check_access_token_status_refresh_after_expiry _
                    (Sim.host Cases.silent (Cases.clock_at (2000 - 3600)))
                    (Sim.start {["sid" := Cases.athlete]}) "sid"
                    Cases.athlete (inject_Z 2000) (2000 - 3600)%Q (Sim.World 0 1)
                    ltac:(discriminate) eq_refl eq_refl eq_refl eq_refl)).
    vm_compute. discriminate.
Defined.

(** ** The session invariant *)

(** C4, as the code runs it.  A request to link the listening-history
    account [bob], sent with a session id the store does not know, is
    answered without error and leaves under that id a record that holds
    [last_fm_username] and no [user_id]. *)
Theorem retrieve_lastfm_user_stores_record_without_user_id :
  fst Cases.link_without_login = Return (Json (VDict [("error", VBool false)]))
  /\ redis (snd Cases.link_without_login) !! "abc"
       = Some {["last_fm_username" := VStr "bob"]}
  /\ ({["last_fm_username" := VStr "bob"]} : gmap string value) !! "user_id" = None.
Proof.
  repeat split; vm_compute; reflexivity.
Qed.

(** ** The catalog view without a track list *)

(** A session that has neither field for activity [5]. *)
Lemma get_music_artist_data_without_music_data_witness :
  @get_music_artist_data _ Cases.strava_host (Some "sid") (Some "5")
     (Sim.start {["sid" := Cases.athlete]})
    = (Return error_status_true, Sim.start {["sid" := Cases.athlete]}).
Proof.
  exact (@get_music_artist_data_without_music_data _ Cases.strava_host
           (Sim.start {["sid" := Cases.athlete]}) "sid" (Some "5") Cases.athlete
           ltac:(discriminate) eq_refl eq_refl eq_refl).
Defined.

(** C10, the case that separates the claim from the code.  A first request
    asks for the detail of the activity id [5_spotify]; the fitness
    provider's answer is cached under the key [5_spotify_data] before the
    view reports the failure.  The session is authenticated and has no
    [5_music_data]; yet the catalog view for activity [5] does not fail: it
    finds [5_spotify_data] non-empty and returns it. *)
Lemma get_music_artist_data_answers_from_cached_field :
  fst Cases.detail_of_5_spotify = Return error_status_true
  /\ redis (snd Cases.detail_of_5_spotify) !! "sid" = Some Cases.after_detail
  /\ Py.truthy (@field Cases.after_detail "user_id") = true
  /\ Cases.after_detail !! @music_key (Some "5") = None
  /\ fst Cases.catalog_of_5 = Return (Json Cases.not_found_body)
  /\ Json Cases.not_found_body <> error_status_true.
Proof.
  split; [vm_compute; reflexivity|].
  split; [vm_compute; reflexivity|].
  split; [vm_compute; reflexivity|].
  split; [vm_compute; reflexivity|].
  split; [vm_compute; reflexivity|].
  discriminate.
Qed.

(** ** The app credential *)


(** ** The catalog step *)



(** ** The listening history *)

(** Two plays before the start of the activity, of which only the one that
    is still playing at the start is kept and cached. *)
Lemma music_block_window_and_post_filter_witness :
  exists final : list value,
    Cases.history_music = VList final
    /\ redis (snd Cases.history_run) !! "sid"
         = Some (<[@music_key (Some "5") := VList final]> Cases.runner)
    /\ length final = 1%nat.
Proof.
  assert (Hrun : @music_block _ Cases.history_host (Some "sid") (Some "5")
                   Cases.runner 10000 (VInt 11800)
                   (Sim.start {["sid" := Cases.runner]})
                 = (Return Cases.history_music, snd Cases.history_run))
    by (vm_compute; reflexivity).
  destruct (proj1 (@music_block_window_and_post_filter _ Cases.history_host
                     "sid" (Some "5") Cases.runner 10000 (VInt 11800)
                     Cases.history_music (Sim.start {["sid" := Cases.runner]})
                     (snd Cases.history_run) Hrun))
    as (reply & recenttracks & track & tracks & enriched & final & later
        & st1 & st2 & _ & _ & _ & _ & _ & _ & _ & _ & _ & _ & Hmusic & Hredis).
  exists final. split; [exact Hmusic|]. split; [exact Hredis|].
  vm_compute in Hmusic. injection Hmusic as <-. reflexivity.
Defined.

(** ** Optional fields *)



(** ** The per-activity cache *)




(** ** Further facts about the views *)

Section FurtherFacts.
Context {W : Type} `{Host W}.

(** *** Sessions *)

Lemma get_session_state (session_id : option string) (st : state W) :
  snd (get_session session_id st) = st.
Proof.
  destruct (get_session_total session_id st) as (us & E & _). rewrite E. reflexivity.
Qed.

Lemma field_truthy_stored (us : session) (k : string) :
  Py.truthy (field us k) = true -> is_Some (us !! k).
Proof.
  unfold field. destruct (us !! k) as [v|]; [eauto|discriminate].
Qed.

(** A loaded record that holds a [user_id] was stored under the session
    id, which is not empty. *)
Lemma get_session_authenticated (session_id : option string) (us : session)
    (st st' : state W) :
  get_session session_id st = (Return us, st') ->
  Py.truthy (field us "user_id") = true ->
  st' = st /\ exists sid, session_id = Some sid /\ sid ≠ "" /\ redis st !! sid = Some us.
Proof.
  intros E Ht.
  destruct (get_session_total session_id st) as (us0 & E0 & Hor).
  rewrite E0 in E. inversion E; subst us0 st'. split; [reflexivity|].
  destruct Hor as [->|(sid & -> & Hin)]; [discriminate|].
  exists sid. split; [reflexivity|]. split; [|exact Hin].
  intros ->. unfold get_session in E0. simpl in E0. inversion E0; subst.
  discriminate.
Qed.


(** *** The user credential, further *)

(** What the credential check does to the state.  It leaves the session
    store as it was unless it returns.  When it returns, the session id
    names a stored record with a [user_id]; the store then holds, under
    that id, a record that differs from it at most in the credential
    triple; and at most the refresh request was sent. *)
Lemma check_access_token_status_effect (session_id : option string)
    (st : state W) :
  (fst (check_access_token_status session_id st) <> Return tt ->
     redis (snd (check_access_token_status session_id st)) = redis st)
  /\ (fst (check_access_token_status session_id st) = Return tt ->
      exists sid us us',
        session_id = Some sid /\ sid ≠ ""
        /\ redis st !! sid = Some us
        /\ Py.truthy (field us "user_id") = true
        /\ redis (snd (check_access_token_status session_id st))
             = <[sid := us']> (redis st)
        /\ (forall k, k ≠ "access_token" -> k ≠ "refresh_token" ->
                      k ≠ "access_token_expirytime" -> us' !! k = us !! k))
  /\ (trace (snd (check_access_token_status session_id st)) = trace st
      \/ exists us,
           get_session session_id st = (Return us, st)
           /\ trace (snd (check_access_token_status session_id st))
                = refresh_request us :: trace st).
Proof.
  remember (check_access_token_status session_id st) as r eqn:Er.
  unfold check_access_token_status in Er. rewrite bind_eq in Er.
  destruct (get_session_total session_id st) as (us & E & _). rewrite E in Er.
  destruct (Py.truthy (field us "user_id")) eqn:Huid.
  2:{ subst r. simpl. split; [reflexivity|]. split; [discriminate|left; reflexivity]. }
  destruct (get_session_authenticated _ _ _ _ E Huid) as (_ & sid & -> & Hne & Hin).
  rewrite bind_eq in Er. unfold now at 1 in Er.
  destruct (time_time (world st)) as [t w1].
  rewrite bind_eq in Er.
  destruct (Py.num (field us "access_token_expirytime")) as [e|]; cbn [lift ret raise] in Er.
  2:{ subst r. simpl. split; [reflexivity|]. split; [discriminate|left; reflexivity]. }
  destruct (Py.Qlt_bool e t).
  2:{ subst r. cbn [ret fst snd redis trace].
      split; [intros Hc; exfalso; apply Hc; reflexivity|].
      split; [|left; reflexivity].
      intros _. exists sid, us, us.
      split; [reflexivity|]. split; [exact Hne|]. split; [exact Hin|].
      split; [exact Huid|].
      split; [symmetry; apply insert_id; exact Hin|reflexivity]. }
  unfold try_except, requests, requests_call, json, bind in Er.
  cbn [world redis trace] in Er.
  assert (Hfail : forall w : W,
    let st' := State (redis st) w (refresh_request us :: trace st) in
    (@Raise unit <> Return tt -> redis st' = redis st)
    /\ (@Raise unit = Return tt ->
        exists sid0 us0 us',
          Some sid = Some sid0 /\ sid0 ≠ "" /\ redis st !! sid0 = Some us0
          /\ Py.truthy (field us0 "user_id") = true
          /\ redis st' = <[sid0 := us']> (redis st)
          /\ (forall k, k ≠ "access_token" -> k ≠ "refresh_token" ->
                        k ≠ "access_token_expirytime" -> us' !! k = us0 !! k))
    /\ (trace st' = trace st
        \/ exists us0, get_session (Some sid) st = (Return us0, st)
             /\ trace st' = refresh_request us0 :: trace st)).
  { intros w st'. split; [reflexivity|]. split; [discriminate|].
    right. exists us. split; [exact E|reflexivity]. }
  destruct (send (refresh_request us) w1) as [[[body|]|] w2];
    cbn [lift ret raise] in Er; [|subst r; exact (Hfail w2)..].
  destruct (Py.item body "access_token") as [a|];
    cbn [lift ret raise] in Er; [|subst r; exact (Hfail w2)].
  destruct (Py.item body "refresh_token") as [rt|];
    cbn [lift ret raise] in Er; [|subst r; exact (Hfail w2)].
  destruct (Py.item body "expires_at") as [x|];
    cbn [lift ret raise] in Er; [|subst r; exact (Hfail w2)].
  cbn [redis_set ret] in Er. subst r. cbn [fst snd redis trace].
  split; [intros Hc; exfalso; apply Hc; reflexivity|]. split.
  - intros _. eexists sid, us, _.
    split; [reflexivity|]. split; [exact Hne|]. split; [exact Hin|].
    split; [exact Huid|]. split; [reflexivity|].
    intros k H1 H2 H3. rewrite !lookup_insert_ne by congruence. reflexivity.
  - right. exists us. split; [exact E|reflexivity].
Qed.

(** *** Who is logged in *)

Lemma authenticated_false (session_id : option string) (st : state W) :
  authenticated session_id st = false ->
  exists us, get_session session_id st = (Return us, st)
             /\ Py.truthy (field us "user_id") = false.
Proof.
  intros Ha.
  destruct (get_session_total session_id st) as (us & E & Hor).
  exists us. split; [exact E|].
  destruct (Py.truthy (field us "user_id")) eqn:Hu; [|reflexivity].
  destruct (get_session_authenticated _ _ _ _ E Hu) as (_ & sid & -> & Hne & Hin).
  unfold authenticated in Ha. rewrite Hin, Hu in Ha.
  apply String.eqb_neq in Hne. rewrite Hne in Ha. discriminate.
Qed.

Lemma authenticated_true (session_id : option string) (st : state W) :
  authenticated session_id st = true ->
  exists sid us, session_id = Some sid /\ sid ≠ ""
                 /\ redis st !! sid = Some us
                 /\ Py.truthy (field us "user_id") = true
                 /\ get_session session_id st = (Return us, st).
Proof.
  unfold authenticated. destruct session_id as [sid|]; [|discriminate].
  intros Ha. apply andb_true_iff in Ha as [Hne Hu].
  apply negb_true_iff, String.eqb_neq in Hne.
  destruct (redis st !! sid) as [us|] eqn:Hin; [|discriminate].
  exists sid, us. repeat split; try assumption.
  apply get_session_stored; assumption.
Qed.

Lemma authenticated_redis (session_id : option string) (st st' : state W) :
  redis st' = redis st -> authenticated session_id st' = authenticated session_id st.
Proof. intros E. unfold authenticated. rewrite E. reflexivity. Qed.

(** X1.  A request whose session id is absent, empty, unknown to the
    store, or names a record without a [user_id], is refused by each of
    the five data views with status 401; nothing is sent to a provider
    and the state is left as it was.  The status view reports that nobody
    is logged in. *)
Theorem unauthenticated_requests_are_refused (session_id : option string)
    (st : state W) (fuel : nat)
    (activity_id start_date end_date : option string) :
  authenticated session_id st = false ->
  get_user_activity_data fuel session_id start_date end_date st
    = (Return (Abort 401), st)
  /\ get_user_profile_data session_id st = (Return (Abort 401), st)
  /\ get_activity_strava_data session_id activity_id st = (Return (Abort 401), st)
  /\ get_activity_music_data session_id activity_id st = (Return (Abort 401), st)
  /\ get_music_artist_data session_id activity_id st = (Return (Abort 401), st)
  /\ check_authentication session_id st
       = (Return (Json (VDict [("result", VBool false)])), st).
Proof.
  intros Ha. destruct (authenticated_false _ _ Ha) as (us & E & Hf).
  unfold get_user_activity_data, get_user_profile_data, get_activity_strava_data,
    get_activity_music_data, get_music_artist_data, check_authentication.
  rewrite !bind_eq, E, Hf. repeat split.
Qed.

(** X2.  The credential check touches nothing but the caller's own
    record, and of that record nothing but the credential triple.  When
    it fails the store is as before.  It sends at most one request, the
    refresh of the stored credential. *)
Theorem check_access_token_status_frame (session_id : option string)
    (st : state W) :
  let st' := snd (check_access_token_status session_id st) in
  (fst (check_access_token_status session_id st) <> Return tt ->
     redis st' = redis st)
  /\ (forall sid, session_id <> Some sid -> redis st' !! sid = redis st !! sid)
  /\ (forall sid us, session_id = Some sid -> redis st !! sid = Some us ->
        exists us', redis st' !! sid = Some us' /\ same_but_credential us us')
  /\ (forall sid, redis st !! sid = None -> redis st' !! sid = None)
  /\ (trace st' = trace st
      \/ exists sid us,
           session_id = Some sid /\ redis st !! sid = Some us
           /\ trace st' = refresh_request us :: trace st).
Proof.
  intros st'. subst st'.
  destruct (check_access_token_status_effect session_id st) as (Hfail & Hok & Htr).
  destruct (fst (check_access_token_status session_id st)) as [[]| |] eqn:Hout.
  - destruct (Hok eq_refl) as (sid & us & us' & -> & Hne & Hin & Hu & Hst & Hsame).
    split; [intros Hc; exfalso; apply Hc; reflexivity|].
    split.
    { intros k Hk. rewrite Hst. apply lookup_insert_ne. congruence. }
    split.
    { intros k us0 Hk Hin0. inversion Hk; subst k. rewrite Hin in Hin0.
      inversion Hin0; subst us0. exists us'. rewrite Hst, lookup_insert_eq.
      split; [reflexivity|exact Hsame]. }
    split.
    { intros k Hk. rewrite Hst. rewrite lookup_insert_ne; [exact Hk|].
      intros ->. rewrite Hin in Hk. discriminate. }
    destruct Htr as [Htr|(us0 & E0 & Htr)]; [left; exact Htr|].
    right. exists sid, us. split; [reflexivity|]. split; [exact Hin|].
    rewrite (get_session_stored sid us st Hne Hin) in E0. inversion E0; subst us0.
    exact Htr.
  - assert (Hr : redis (snd (check_access_token_status session_id st)) = redis st)
      by (apply Hfail; discriminate).
    split; [intros _; exact Hr|]. rewrite Hr.
    split; [reflexivity|]. split.
    { intros k us0 _ Hin0. exists us0. split; [exact Hin0|]. intros ? _ _ _. reflexivity. }
    split; [intros ? Hk; exact Hk|].
    destruct Htr as [Htr|(us0 & E0 & Htr)]; [left; exact Htr|].
    right.
    destruct (Py.truthy (field us0 "user_id")) eqn:Hu.
    + destruct (get_session_authenticated _ _ _ _ E0 Hu) as (_ & sid & -> & Hne & Hin).
      exists sid, us0. repeat split; assumption.
    + exfalso. unfold check_access_token_status in Htr.
      rewrite bind_eq, E0, Hu in Htr. simpl in Htr.
      apply (f_equal (@length request)) in Htr. simpl in Htr. lia.
  - assert (Hr : redis (snd (check_access_token_status session_id st)) = redis st)
      by (apply Hfail; discriminate).
    split; [intros _; exact Hr|]. rewrite Hr.
    split; [reflexivity|]. split.
    { intros k us0 _ Hin0. exists us0. split; [exact Hin0|]. intros ? _ _ _. reflexivity. }
    split; [intros ? Hk; exact Hk|].
    destruct Htr as [Htr|(us0 & E0 & Htr)]; [left; exact Htr|].
    right.
    destruct (Py.truthy (field us0 "user_id")) eqn:Hu.
    + destruct (get_session_authenticated _ _ _ _ E0 Hu) as (_ & sid & -> & Hne & Hin).
      exists sid, us0. repeat split; assumption.
    + exfalso. unfold check_access_token_status in Htr.
      rewrite bind_eq, E0, Hu in Htr. simpl in Htr.
      apply (f_equal (@length request)) in Htr. simpl in Htr. lia.
Qed.

(** *** Stored records belong to logged-in users *)

Ltac keeps_next :=
  eapply keeps_bind;
  [ first [ apply keeps_lift
          | apply keeps_now; assumption
          | apply keeps_requests_call; assumption
          | apply keeps_requests; assumption ]
  | intros ? _ ].

Ltac keeps_case :=
  match goal with
  | |- keeps _ (if ?b then _ else _) _ => destruct b eqn:?
  end.

Lemma keeps_raise {A : Type} (P : state W -> Prop) (Q : A -> Prop) :
  keeps P (@raise W A) Q.
Proof. intros st HP. split; [exact HP|discriminate]. Qed.

Lemma keeps_try_except {A B : Type} (P : state W -> Prop) (body : M W A)
    (rest : A -> M W B) (handler : M W B) (Q : A -> Prop) (Q' : B -> Prop) :
  keeps P body Q ->
  (forall a, Q a -> keeps P (rest a) Q') ->
  keeps P handler Q' ->
  keeps P (try_except body rest handler) Q'.
Proof.
  intros Hb Hr Hh st HP. unfold try_except.
  destruct (Hb st HP) as [HP' HQ].
  destruct (body st) as [[a| |] st']; simpl in *.
  - apply (Hr a (HQ a eq_refl) st' HP').
  - apply (Hh st' HP').
  - split; [exact HP'|discriminate].
Qed.

Lemma keeps_weaken {A : Type} (P : state W -> Prop) (c : M W A)
    (Q Q' : A -> Prop) :
  keeps P c Q -> (forall a, Q a -> Q' a) -> keeps P c Q'.
Proof.
  intros Hc HQ st HP. destruct (Hc st HP) as [HP' Ha].
  split; [exact HP'|]. intros a E. apply HQ, Ha, E.
Qed.

Lemma keeps_redis_set_any (P : state W -> Prop) (key : option string)
    (record : session) :
  (forall sid st, key = Some sid -> P st ->
     P (State (<[sid := record]> (redis st)) (world st) (trace st))) ->
  keeps P (redis_set key record) (fun _ => True).
Proof.
  intros Hset. destruct key as [sid|].
  - apply keeps_redis_set. intros st HP. apply (Hset sid st eq_refl HP).
  - apply keeps_raise.
Qed.

Lemma keeps_get_session (P : state W -> Prop) (session_id : option string) :
  keeps P (get_session session_id) (fun _ => True).
Proof.
  intros st HP. rewrite get_session_state. split; [exact HP|auto].
Qed.

Lemma records_redis_only : redis_only (@records_have_user_id W).
Proof. intros st st' E HP sid us. rewrite E. apply HP. Qed.

Lemma records_save (sid : string) (record : session) (st : state W) :
  Py.truthy (field record "user_id") = true ->
  records_have_user_id st ->
  records_have_user_id
    (State (<[sid := record]> (redis st)) (world st) (trace st)).
Proof.
  intros Hu HP k us. simpl. destruct (decide (k = sid)) as [->|Hk].
  - rewrite lookup_insert_eq. intros E. inversion E; subst. exact Hu.
  - rewrite lookup_insert_ne by congruence. apply HP.
Qed.

Lemma agree_user_id (a b : session) :
  agree a b -> field b "user_id" = field a "user_id".
Proof. intros Ha. unfold field. rewrite (Ha "user_id"); [reflexivity|discriminate]. Qed.

Lemma records_save_closed (sid : string) (us0 : session) :
  Py.truthy (field us0 "user_id") = true ->
  save_closed sid us0 (@records_have_user_id W).
Proof.
  intros Hu. split; [apply records_redis_only|].
  intros st record Ha HP. apply records_save; [|exact HP].
  rewrite (agree_user_id _ _ Ha). exact Hu.
Qed.

Lemma data_key_not_user_id (activity_id : option string) :
  data_key activity_id ≠ "user_id".
Proof.
  unfold data_key. intros E.
  apply (f_equal (fun s => last_char s "x")) in E.
  rewrite last_char_append in E. discriminate E.
Qed.

Lemma streams_key_not_user_id (activity_id : option string) :
  streams_key activity_id ≠ "user_id".
Proof.
  unfold streams_key. intros E.
  apply (f_equal (fun s => last_char s "x")) in E.
  rewrite last_char_append in E. discriminate E.
Qed.

Lemma music_key_not_user_id (activity_id : option string) :
  music_key activity_id ≠ "user_id".
Proof.
  unfold music_key. intros E.
  apply (f_equal (fun s => last_char s "x")) in E.
  rewrite last_char_append in E. discriminate E.
Qed.

(** The outcome of the credential check is a return or an exception. *)
Lemma check_access_token_status_outcome (session_id : option string)
    (st : state W) :
  fst (check_access_token_status session_id st) <> OutOfFuel.
Proof.
  unfold check_access_token_status. rewrite bind_eq.
  destruct (get_session_total session_id st) as (us & E & _). rewrite E.
  destruct (Py.truthy (field us "user_id")); [|discriminate].
  unfold try_except, requests, requests_call, json, bind, now, lift, redis_set.
  repeat (case_match; simpl in *; try discriminate; simplify_eq).
Qed.

(** The check followed by the reload of the record, as every view that
    calls a fitness endpoint starts: what comes back is the stored
    record, which is the one of before up to the credential triple. *)
Lemma check_then_reload (session_id : option string) (st st1 : state W)
    (us1 : session) :
  (check_access_token_status session_id ;; get_session session_id) st
    = (Return us1, st1) ->
  check_access_token_status session_id st = (Return tt, st1)
  /\ exists sid us,
       session_id = Some sid /\ sid ≠ ""
       /\ redis st !! sid = Some us
       /\ Py.truthy (field us "user_id") = true
       /\ redis st1 = <[sid := us1]> (redis st)
       /\ redis st1 !! sid = Some us1
       /\ same_but_credential us us1.
Proof.
  intros E. apply bind_Return_inv in E as ([] & st0 & Ec & Eg).
  destruct (check_access_token_status_effect session_id st) as (_ & Hok & _).
  rewrite Ec in Hok. simpl in Hok.
  destruct (Hok eq_refl) as (sid & us & us' & -> & Hne & Hin & Hu & Hst & Hsame).
  assert (Hin' : redis st0 !! sid = Some us') by (rewrite Hst; apply lookup_insert_eq).
  rewrite (get_session_stored sid us' st0 Hne Hin') in Eg.
  inversion Eg; subst us1 st1. split; [exact Ec|].
  exists sid, us. repeat split; assumption.
Qed.

Lemma check_then_reload_fails (session_id : option string) (st : state W) :
  fst (check_access_token_status session_id st) <> Return tt ->
  (check_access_token_status session_id ;; get_session session_id) st
    = (Raise, snd (check_access_token_status session_id st)).
Proof.
  intros Hf. rewrite bind_eq.
  pose proof (check_access_token_status_outcome session_id st) as Ho.
  destruct (check_access_token_status session_id st) as [[[]| |] st0]; simpl in *;
    [exfalso; apply Hf; reflexivity|reflexivity|exfalso; apply Ho; reflexivity].
Qed.

Lemma same_but_credential_user_id (a b : session) :
  same_but_credential a b -> field b "user_id" = field a "user_id".
Proof. intros Hs. unfold field. rewrite (Hs "user_id"); [reflexivity|discriminate..]. Qed.

Lemma keeps_check_then_reload (session_id : option string) :
  keeps records_have_user_id
    (check_access_token_status session_id ;; get_session session_id)
    (fun us1 => Py.truthy (field us1 "user_id") = true).
Proof.
  intros st HP.
  destruct ((check_access_token_status session_id ;; get_session session_id) st)
    as [[us1| |] st1] eqn:E.
  - destruct (check_then_reload _ _ _ _ E)
      as (_ & sid & us & -> & Hne & Hin & Hu & Hst & Hin1 & Hsame).
    assert (Hu1 : Py.truthy (field us1 "user_id") = true)
      by (rewrite (same_but_credential_user_id _ _ Hsame); exact Hu).
    simpl. split.
    + intros k r. rewrite Hst. destruct (decide (k = sid)) as [->|Hk].
      * rewrite lookup_insert_eq. intros Er. inversion Er; subst. exact Hu1.
      * rewrite lookup_insert_ne by congruence. apply HP.
    + intros a Ea. inversion Ea; subst. exact Hu1.
  - simpl. split; [|discriminate].
    destruct (check_access_token_status_effect session_id st) as (Hfail & _ & _).
    rewrite bind_eq in E.
    destruct (check_access_token_status session_id st) as [[[]| |] st0] eqn:Ec.
    + exfalso. pose proof (get_session_total session_id st0) as (u & Eu & _).
      rewrite Eu in E. discriminate.
    + inversion E; subst. apply (records_redis_only st); [|exact HP].
      apply Hfail. discriminate.
    + discriminate.
  - exfalso. rewrite bind_eq in E.
    pose proof (check_access_token_status_outcome session_id st) as Ho.
    destruct (check_access_token_status session_id st) as [[[]| |] st0] eqn:Ec.
    + pose proof (get_session_total session_id st0) as (u & Eu & _).
      rewrite Eu in E. discriminate.
    + discriminate.
    + apply Ho. reflexivity.
Qed.

Lemma keeps_fetch_activities (P : state W -> Prop) (fuel : nat) (us : session)
    (payload : list (string * value)) (acc : list value) (pn : Z) :
  redis_only P ->
  keeps P (fetch_activities fuel us payload acc pn) (fun _ => True).
Proof.
  intros HR. revert acc pn. induction fuel as [|fuel IH]; intros acc pn.
  - intros st HP. split; [exact HP|discriminate].
  - cbn [fetch_activities]. keeps_next. keeps_next. keeps_next.
    keeps_case; [apply keeps_ret; exact I|apply IH].
Qed.

Lemma keeps_enrich (P : state W -> Prop) (music_list : list value) :
  redis_only P -> keeps P (enrich music_list) (fun _ => True).
Proof.
  intros HR. induction music_list as [|track rest IH].
  - apply keeps_ret. exact I.
  - cbn [enrich]. do 8 keeps_next.
    eapply keeps_bind; [exact IH|]. intros ? _. apply keeps_ret. exact I.
Qed.

Lemma keeps_cross_reference_all (P : state W -> Prop) (R : session -> Prop)
    (sid : string) (activity_id : option string) :
  (forall u, R u -> save_closed sid u P) ->
  (forall u u', R u -> agree u u' -> R u') ->
  (forall u v, R u -> R (<[spotify_key activity_id := v]> u)) ->
  forall (l : list value) (us : session) (acc : list value),
    R us ->
    keeps P (cross_reference_all (Some sid) activity_id l us acc) (fun _ => True).
Proof.
  intros Hclosed Hagree Hkey l.
  induction l as [|t l IH]; intros us acc HR.
  - apply keeps_ret. exact I.
  - cbn [cross_reference_all].
    eapply keeps_bind.
    + exact (cross_reference_agree P sid us us t (Hclosed us HR) (agree_refl us)).
    + intros [record us1] Ha. simpl in Ha.
      assert (HR1 : R (<[spotify_key activity_id := VList (acc ++ [record])]> us1))
        by (apply Hkey; apply (Hagree us); assumption).
      eapply keeps_bind.
      * apply keeps_redis_set. intros st HP.
        apply (proj2 (Hclosed _ HR1)); [apply agree_refl|exact HP].
      * intros _ _. apply IH. exact HR1.
Qed.

Lemma keeps_cross_reference_all_user_id (sid : string)
    (activity_id : option string) (l : list value) (us : session)
    (acc : list value) :
  Py.truthy (field us "user_id") = true ->
  keeps records_have_user_id
    (cross_reference_all (Some sid) activity_id l us acc) (fun _ => True).
Proof.
  apply (keeps_cross_reference_all records_have_user_id
           (fun u => Py.truthy (field u "user_id") = true)).
  - intros u Hu. apply records_save_closed. exact Hu.
  - intros u u' Hu Ha. rewrite (agree_user_id _ _ Ha). exact Hu.
  - intros u v Hu. rewrite field_insert_ne by apply spotify_key_not_user_id.
    exact Hu.
Qed.

Lemma keeps_strava_data_block (session_id activity_id : option string)
    (us : session) :
  Py.truthy (field us "user_id") = true ->
  keeps records_have_user_id (strava_data_block session_id activity_id us)
    (fun _ => True).
Proof.
  intros Hu. pose proof records_redis_only as HR. unfold strava_data_block.
  eapply keeps_bind with
    (Q := fun r : value * session => Py.truthy (field (snd r) "user_id") = true).
  { destruct (Py.truthy (field us (data_key activity_id))).
    - apply keeps_ret. exact Hu.
    - keeps_next. apply keeps_ret. simpl.
      rewrite field_insert_ne by apply data_key_not_user_id. exact Hu. }
  intros [d us1] Hu1. simpl in Hu1.
  eapply keeps_bind with
    (Q := fun r : value * session => Py.truthy (field (snd r) "user_id") = true).
  { destruct (Py.truthy (field us1 (streams_key activity_id))).
    - apply keeps_ret. exact Hu1.
    - keeps_next. apply keeps_ret. simpl.
      rewrite field_insert_ne by apply streams_key_not_user_id. exact Hu1. }
  intros [s us2] Hu2. simpl in Hu2.
  eapply keeps_bind.
  { apply keeps_redis_set_any. intros sid st _ HP. apply records_save; assumption. }
  intros _ _. keeps_next.
  keeps_case; [apply keeps_raise|apply keeps_ret; exact I].
Qed.

Lemma keeps_music_after_detail (session_id activity_id : option string)
    (us : session) (detail : value) :
  Py.truthy (field us "user_id") = true ->
  keeps records_have_user_id
    (music_after_detail session_id activity_id us detail) (fun _ => True).
Proof.
  intros Hu. pose proof records_redis_only as HR. unfold music_after_detail.
  do 4 keeps_next.
  destruct (Py.truthy (field us (music_key activity_id))).
  { apply keeps_ret. exact I. }
  eapply keeps_try_except with (Q := fun _ => True).
  - unfold music_block. do 4 keeps_next.
    eapply keeps_bind; [apply keeps_enrich; exact HR|]. intros ? _.
    keeps_next.
    eapply keeps_bind.
    + apply keeps_redis_set_any. intros sid st _ HP. apply records_save; [|exact HP].
      rewrite field_insert_ne by apply music_key_not_user_id. exact Hu.
    + intros _ _. apply keeps_ret. exact I.
  - intros ? _. apply keeps_ret. exact I.
  - apply keeps_ret. exact I.
Qed.

Lemma keeps_redis_delete (key : option string) :
  keeps (@records_have_user_id W) (redis_delete key) (fun _ => True).
Proof.
  destruct key as [k|]; [|apply keeps_raise].
  intros st HP. simpl. split; [|auto].
  intros sid us Hin. simpl in Hin.
  apply lookup_delete_Some in Hin as [_ Hin]. apply (HP sid us Hin).
Qed.

(** X3.  The data views, the status view and the logout never leave a
    record without a [user_id] in the store: if every stored record
    holds one before the request, every stored record holds one after
    it, whatever the providers answer and whether the view returns,
    fails or runs out of fuel. *)
Theorem views_keep_records_of_logged_in_users (st : state W) (fuel : nat)
    (session_id activity_id start_date end_date : option string) :
  records_have_user_id st ->
  records_have_user_id
    (snd (get_user_activity_data fuel session_id start_date end_date st))
  /\ records_have_user_id (snd (get_user_profile_data session_id st))
  /\ records_have_user_id (snd (get_activity_strava_data session_id activity_id st))
  /\ records_have_user_id (snd (get_activity_music_data session_id activity_id st))
  /\ records_have_user_id (snd (get_music_artist_data session_id activity_id st))
  /\ records_have_user_id (snd (check_authentication session_id st))
  /\ records_have_user_id (snd (logout_user session_id st)).
Proof.
  intros HP. pose proof records_redis_only as HR.
  assert (Hload : forall (B : Type) (k : session -> M W B),
            (forall us, keeps records_have_user_id (k us) (fun _ => True)) ->
            keeps records_have_user_id (bind (get_session session_id) k)
              (fun _ => True)).
  { intros B k Hk. eapply keeps_bind; [apply keeps_get_session|].
    intros us _. apply Hk. }
  repeat split.
  - apply (Hload _ _); [|exact HP]. intros us.
    destruct (Py.truthy (field us "user_id")); [|apply keeps_ret; exact I].
    keeps_case; [apply keeps_ret; exact I|].
    eapply keeps_try_except; [apply keeps_check_then_reload| |apply keeps_ret; exact I].
    intros us1 Hu1.
    eapply keeps_bind; [apply keeps_fetch_activities; exact HR|]. intros ? _.
    keeps_next.
    eapply keeps_bind with (Q := fun _ : unit => True);
      [|intros _ _; apply keeps_ret; exact I].
    keeps_case; [|apply keeps_ret; exact I].
    apply keeps_redis_set_any. intros sid st0 _ HP0. apply records_save; [|exact HP0].
    rewrite field_insert_ne by discriminate. exact Hu1.
  - apply (Hload _ _); [|exact HP]. intros us.
    destruct (Py.truthy (field us "user_id")); [|apply keeps_ret; exact I].
    eapply keeps_try_except; [apply keeps_check_then_reload| |apply keeps_ret; exact I].
    intros us1 Hu1. keeps_next. apply keeps_ret. exact I.
  - apply (Hload _ _); [|exact HP]. intros us.
    destruct (Py.truthy (field us "user_id")); [|apply keeps_ret; exact I].
    eapply keeps_try_except; [apply keeps_check_then_reload| |apply keeps_ret; exact I].
    intros us1 Hu1.
    eapply keeps_try_except;
      [apply keeps_strava_data_block; exact Hu1| |apply keeps_ret; exact I].
    intros [d s] _. apply keeps_ret. exact I.
  - apply (Hload _ _); [|exact HP]. intros us.
    destruct (Py.truthy (field us "user_id")) eqn:Hu; [|apply keeps_ret; exact I].
    destruct (Py.truthy (field us (data_key activity_id))).
    { apply keeps_music_after_detail. exact Hu. }
    eapply keeps_try_except; [apply keeps_check_then_reload| |apply keeps_ret; exact I].
    intros us1 Hu1. keeps_next. apply keeps_music_after_detail. exact Hu1.
  - unfold get_music_artist_data.
    destruct (get_session_total session_id st) as (us & E & _).
    rewrite bind_eq, E.
    destruct (Py.truthy (field us "user_id")) eqn:Hu; [|exact HP].
    destruct (get_session_authenticated _ _ _ _ E Hu) as (_ & sid & -> & _ & _).
    refine (proj1 (keeps_try_except records_have_user_id _ _ _ (fun _ => True)
                     (fun _ => True) _ _ _ st HP)).
    + unfold artist_block.
      destruct (Py.truthy (field us (spotify_key activity_id)));
        [apply keeps_ret; exact I|].
      keeps_next.
      eapply keeps_bind; [apply keeps_cross_reference_all_user_id; exact Hu|].
      intros [l ?] _. apply keeps_ret. exact I.
    + intros ? _. apply keeps_ret. exact I.
    + apply keeps_ret. exact I.
  - apply (Hload _ _); [|exact HP]. intros us.
    cbv zeta. keeps_case; apply keeps_ret; exact I.
  - unfold logout_user.
    refine (proj1 (keeps_bind records_have_user_id _ _ (fun _ => True)
                     (fun _ => True) (keeps_redis_delete session_id) _ st HP)).
    intros _ _. apply keeps_ret. exact I.
Qed.

(** *** Logging in *)

(** The record that a login stores. *)
Lemma login_block_run (token : string) (auth_code : option string)
    (st : state W) :
  let st1 w := State (redis st) w (code_exchange_request auth_code :: trace st) in
  (exists w, login_block token auth_code st = (Raise, st1 w))
  \/ exists body athlete id a rt x w,
       send (code_exchange_request auth_code) (world st) = (Some (Some body), w)
       /\ Py.item body "athlete" = Some athlete
       /\ Py.item athlete "id" = Some id
       /\ Py.item body "access_token" = Some a
       /\ Py.item body "refresh_token" = Some rt
       /\ Py.item body "expires_at" = Some x
       /\ login_block token auth_code st
          = (Return (VDict [("error", VBool false); ("session_id", VStr token);
                            ("user_data", athlete)]),
             State (<[token :=
                        <["access_token_expirytime" := x]>
                          (<["refresh_token" := rt]>
                             (<["access_token" := a]>
                                (<["user_id" := id]>
                                   (<["athlete_info" := athlete]> ∅))))]>
                      (redis st))
                   w (code_exchange_request auth_code :: trace st)).
Proof.
  intros st1. subst st1.
  remember (login_block token auth_code st) as r eqn:Er.
  unfold login_block, requests, requests_call, json, bind in Er.
  destruct (send (code_exchange_request auth_code) (world st)) as [[[body|]|] w] eqn:Es;
    cbn [lift ret raise] in Er; [|left; exists w; exact Er..].
  destruct (Py.item body "athlete") as [athlete|] eqn:E1;
    cbn [lift ret raise] in Er; [|left; exists w; exact Er].
  destruct (Py.item athlete "id") as [id|] eqn:E2;
    cbn [lift ret raise] in Er; [|left; exists w; exact Er].
  destruct (Py.item body "access_token") as [a|] eqn:E3;
    cbn [lift ret raise] in Er; [|left; exists w; exact Er].
  destruct (Py.item body "refresh_token") as [rt|] eqn:E4;
    cbn [lift ret raise] in Er; [|left; exists w; exact Er].
  destruct (Py.item body "expires_at") as [x|] eqn:E5;
    cbn [lift ret raise] in Er; [|left; exists w; exact Er].
  cbn [redis_set ret redis world trace] in Er.
  right. exists body, athlete, id, a, rt, x, w.
  repeat (split; [assumption || reflexivity|]). exact Er.
Qed.

(** X4.  A login that goes through.  When the caller is not logged in
    and the provider's answer to the code exchange holds the athlete,
    its id and the credential triple, the view stores the five-field
    record under the drawn token, sends that one request, and answers
    with the token and the athlete.  With a token that is not empty and
    an id that counts as true, the status view then reports the token's
    holder as logged in, with no listening-history account linked. *)
Theorem auth_callback_logs_in (session_id : option string) (token : string)
    (auth_code : option string) (st : state W)
    (body athlete id a rt x : value) (w : W) :
  authenticated session_id st = false ->
  send (code_exchange_request auth_code) (world st) = (Some (Some body), w) ->
  Py.item body "athlete" = Some athlete ->
  Py.item athlete "id" = Some id ->
  Py.item body "access_token" = Some a ->
  Py.item body "refresh_token" = Some rt ->
  Py.item body "expires_at" = Some x ->
  let record : session :=
    <["access_token_expirytime" := x]>
      (<["refresh_token" := rt]>
         (<["access_token" := a]>
            (<["user_id" := id]> (<["athlete_info" := athlete]> ∅)))) in
  let st' :=
    State (<[token := record]> (redis st)) w
      (code_exchange_request auth_code :: trace st) in
  auth_callback session_id token auth_code st
    = (Return (Json (VDict [("error", VBool false); ("session_id", VStr token);
                            ("user_data", athlete)])), st')
  /\ (token ≠ "" -> Py.truthy id = true ->
      authenticated (Some token) st' = true
      /\ check_authentication (Some token) st'
         = (Return (Json (VDict [("result", VBool true);
                                 ("last_fm_status", VBool false)])), st')).
Proof.
  intros Ha Es E1 E2 E3 E4 E5 record st'.
  destruct (authenticated_false _ _ Ha) as (us & E & Hf).
  assert (Hid : field record "user_id" = id).
  { unfold record. rewrite !field_insert_ne by discriminate.
    apply field_insert_eq. }
  assert (Hfm : field record "last_fm_username" = VNone).
  { unfold record. rewrite !field_insert_ne by discriminate. reflexivity. }
  split.
  - unfold auth_callback. rewrite bind_eq, E, Hf. cbn [negb].
    unfold try_except.
    destruct (login_block_run token auth_code st)
      as [(w0 & Er)|(body' & athlete' & id' & a' & rt' & x' & w' & Es' & E1' & E2'
                      & E3' & E4' & E5' & Er)].
    + exfalso. unfold login_block, requests, requests_call, json, bind in Er.
      rewrite Es in Er. cbn [lift ret raise] in Er.
      rewrite E1 in Er. cbn [lift ret raise] in Er.
      rewrite E2 in Er. cbn [lift ret raise] in Er.
      rewrite E3 in Er. cbn [lift ret raise] in Er.
      rewrite E4 in Er. cbn [lift ret raise] in Er.
      rewrite E5 in Er. cbn [lift ret raise redis_set] in Er. discriminate.
    + rewrite Er. rewrite Es in Es'. inversion Es'; subst body' w'.
      rewrite E1 in E1'. inversion E1'; subst athlete'.
      rewrite E2 in E2'. inversion E2'; subst id'.
      rewrite E3 in E3'. inversion E3'; subst a'.
      rewrite E4 in E4'. inversion E4'; subst rt'.
      rewrite E5 in E5'. inversion E5'; subst x'. reflexivity.
  - intros Hne Hid'.
    assert (Hin : redis st' !! token = Some record) by apply lookup_insert_eq.
    split.
    + unfold authenticated. rewrite Hin, Hid, Hid'.
      apply String.eqb_neq in Hne. rewrite Hne. reflexivity.
    + unfold check_authentication.
      rewrite bind_eq, (get_session_stored token record st' Hne Hin).
      cbv zeta. rewrite Hid, Hid', Hfm. reflexivity.
Qed.

(** X5.  The login view always answers with a JSON body: it neither
    raises nor aborts.  A caller who is logged in gets the athlete of the
    stored record and nothing is sent or stored.  For any other caller
    exactly one request is sent, the code exchange, and either the body
    is [{error: True}] and the store is as before, or the body names the
    token and the store has changed at the token and nowhere else. *)
Theorem auth_callback_always_answers (session_id : option string)
    (token : string) (auth_code : option string) (st : state W) :
  let out := auth_callback session_id token auth_code st in
  (authenticated session_id st = true ->
     exists sid us,
       session_id = Some sid /\ redis st !! sid = Some us
       /\ out = (Return (Json (VDict [("error", VBool false);
                                      ("user_data", field us "athlete_info")])), st))
  /\ (authenticated session_id st = false ->
      trace (snd out) = code_exchange_request auth_code :: trace st
      /\ ((fst out = Return (Json (VDict [("error", VBool true)]))
           /\ redis (snd out) = redis st)
          \/ exists athlete record,
               fst out = Return (Json (VDict [("error", VBool false);
                                              ("session_id", VStr token);
                                              ("user_data", athlete)]))
               /\ field record "athlete_info" = athlete
               /\ redis (snd out) = <[token := record]> (redis st))).
Proof.
  intros out. subst out. split.
  - intros Ha.
    destruct (authenticated_true _ _ Ha) as (sid & us & -> & Hne & Hin & Hu & E).
    exists sid, us. split; [reflexivity|]. split; [exact Hin|].
    unfold auth_callback. rewrite bind_eq, E, Hu. reflexivity.
  - intros Ha. destruct (authenticated_false _ _ Ha) as (us & E & Hf).
    unfold auth_callback. rewrite bind_eq, E, Hf. cbn [negb]. unfold try_except.
    destruct (login_block_run token auth_code st)
      as [(w0 & Er)|(body & athlete & id & a & rt & x & w & Es & E1 & E2
                      & E3 & E4 & E5 & Er)]; rewrite Er.
    + split; [reflexivity|]. left. split; reflexivity.
    + split; [reflexivity|]. right. eexists athlete, _.
      split; [reflexivity|]. split; [|reflexivity].
      rewrite !field_insert_ne by discriminate. apply field_insert_eq.
Qed.

(** *** Logging out *)

(** X6.  The logout deletes the record stored under the id it is given,
    whether or not there is one and whoever owns it: no credential is
    asked for and no provider is called.  The id is then not logged in
    any more and loads as the empty record; every other record is as
    before.  Without the header the view raises and changes nothing. *)
Theorem logout_user_deletes_the_record (sid : string) (st : state W) :
  let st' := State (delete sid (redis st)) (world st) (trace st) in
  logout_user (Some sid) st
    = (Return (Json (VDict [("logout-status", VBool true)])), st')
  /\ authenticated (Some sid) st' = false
  /\ get_session (Some sid) st' = (Return ∅, st')
  /\ (forall other, other ≠ sid ->
        redis st' !! other = redis st !! other
        /\ authenticated (Some other) st' = authenticated (Some other) st)
  /\ logout_user None st = (Raise, st).
Proof.
  intros st'.
  assert (Hgone : redis st' !! sid = None) by apply lookup_delete_eq.
  split; [reflexivity|]. split.
  { unfold authenticated. rewrite Hgone. apply andb_false_r. }
  split.
  { apply get_session_unauthenticated. right. right. exists sid. auto. }
  split; [|reflexivity].
  intros other Hne.
  assert (Hsame : redis st' !! other = redis st !! other)
    by (apply lookup_delete_ne; congruence).
  split; [exact Hsame|]. unfold authenticated. rewrite Hsame. reflexivity.
Qed.

(** *** A credential that cannot be refreshed *)

(** X7.  When the credential check fails for a logged-in caller, each
    view that calls the fitness provider answers [{error_status: True}]
    at once: the state is the one the check left, so the store is as
    before the request and nothing but the refresh was sent.  The list
    view and the music view do so unless they answer from the session. *)
Theorem failed_check_is_reported (sid : string) (us : session) (st : state W)
    (fuel : nat) (activity_id start_date end_date : option string) :
  sid ≠ "" ->
  redis st !! sid = Some us ->
  Py.truthy (field us "user_id") = true ->
  fst (check_access_token_status (Some sid) st) <> Return tt ->
  let st1 := snd (check_access_token_status (Some sid) st) in
  redis st1 = redis st
  /\ (trace st1 = trace st \/ trace st1 = refresh_request us :: trace st)
  /\ get_user_profile_data (Some sid) st = (Return error_status_true, st1)
  /\ get_activity_strava_data (Some sid) activity_id st
       = (Return error_status_true, st1)
  /\ (Py.truthy (field us "run_activities")
        && negb (given start_date || given end_date) = false ->
      get_user_activity_data fuel (Some sid) start_date end_date st
        = (Return error_status_true, st1))
  /\ (Py.truthy (field us (data_key activity_id)) = false ->
      get_activity_music_data (Some sid) activity_id st
        = (Return error_status_true, st1)).
Proof.
  intros Hne Hin Hu Hf st1.
  pose proof (get_session_stored sid us st Hne Hin) as E.
  pose proof (check_then_reload_fails (Some sid) st Hf) as Hpre.
  destruct (check_access_token_status_effect (Some sid) st) as (Hfail & _ & Htr).
  split; [apply Hfail; exact Hf|]. split.
  { destruct Htr as [Htr|(us0 & E0 & Htr)]; [left; exact Htr|].
    right. rewrite E in E0. inversion E0; subst us0. exact Htr. }
  unfold get_user_profile_data, get_activity_strava_data, get_user_activity_data,
    get_activity_music_data.
  rewrite !bind_eq, E, Hu.
  split; [unfold try_except; rewrite Hpre; reflexivity|].
  split; [unfold try_except; rewrite Hpre; reflexivity|].
  split; intros Hc; rewrite Hc; unfold try_except; rewrite Hpre; reflexivity.
Qed.

(** *** The activity list, page by page *)

Lemma fetch_activities_step (fuel : nat) (us : session)
    (payload : list (string * value)) (acc : list value) (pn : Z)
    (st : state W) (p : list value) (w1 : W) :
  let rq := Request GET activities_url payload [] (bearer us) in
  let st1 := State (redis st) w1 (rq :: trace st) in
  send rq (world st) = (Some (Some (VList p)), w1) ->
  fetch_activities (S fuel) us payload acc pn st
    = if negb (Z.of_nat (length p) =? 200)
      then (Return (acc ++ p)%list, st1)
      else fetch_activities fuel us payload (acc ++ p)%list (pn + 1) st1.
Proof.
  intros rq st1 Es. cbn [fetch_activities].
  unfold requests, requests_call, json. rewrite !bind_eq. fold rq. rewrite Es.
  cbn [lift ret Py.iter Py.len]. rewrite !bind_eq. cbn [lift ret].
  rewrite !bind_eq. cbn [ret].
  destruct (negb _); reflexivity.
Qed.

(** X8.  The paging loop against a provider that has [full] pages of 200
    activities followed by one page of another length: with more fuel
    than full pages the loop returns what it was given followed by all
    pages in order, having sent the same request once per page and left
    the store alone. *)
Theorem fetch_activities_reads_to_the_short_page (fuel : nat) (us : session)
    (payload : list (string * value)) (acc : list value) (pn : Z)
    (st : state W) (full : list (list value)) (last : list value) (w' : W) :
  let rq := Request GET activities_url payload [] (bearer us) in
  serves rq (world st) (full ++ [last]) w' ->
  Forall (fun p => length p = 200%nat) full ->
  length last ≠ 200%nat ->
  (length full < fuel)%nat ->
  fetch_activities fuel us payload acc pn st
    = (Return (acc ++ concat full ++ last)%list,
       State (redis st) w' (repeat rq (S (length full)) ++ trace st)%list).
Proof.
  intros rq. revert fuel acc pn st.
  induction full as [|p full IH]; intros fuel acc pn st Hs Hfull Hlast Hfuel.
  - destruct fuel as [|fuel]; [simpl in Hfuel; lia|].
    simpl in Hs. destruct Hs as (w1 & Es & ->).
    rewrite (fetch_activities_step fuel us payload acc pn st last w1 Es).
    destruct (Z.eqb_spec (Z.of_nat (length last)) 200) as [Heq|_]; [lia|].
    reflexivity.
  - destruct fuel as [|fuel]; [simpl in Hfuel; lia|].
    cbn [app serves] in Hs. destruct Hs as (w1 & Es & Hs).
    inversion Hfull as [|? ? Hp Hfull']; subst.
    rewrite (fetch_activities_step fuel us payload acc pn st p w1 Es).
    destruct (Z.eqb_spec (Z.of_nat (length p)) 200) as [_|Hneq]; [|lia].
    cbn [negb]. fold rq.
    rewrite (IH fuel (acc ++ p)%list (pn + 1)
               (State (redis st) w1 (rq :: trace st)) Hs Hfull' Hlast);
      [|simpl in Hfuel; lia].
    cbn [redis trace concat length]. f_equal.
    + f_equal. rewrite <- !app_assoc. reflexivity.
    + f_equal. change (rq :: trace st) with ([rq] ++ trace st)%list.
      rewrite app_assoc. f_equal.
      change (S (length full)) with (length (p :: full)) at 1.
      cbn [length]. rewrite <- repeat_cons. reflexivity.
Qed.

(** *** The run filter *)

Lemma eq_Run (ty : value) :
  Py.eq ty (VStr "Run") = match ty with VStr s => String.eqb s "Run" | _ => false end.
Proof. destruct ty; reflexivity. Qed.

Lemma is_run_typed (a : value) :
  default false (is_run a) = typed_run a.
Proof.
  unfold is_run, typed_run. destruct (Py.item a "type") as [ty|]; [|reflexivity].
  cbn [mbind option_bind default]. apply eq_Run.
Qed.

Lemma is_run_Some (a : value) :
  is_Some (Py.item a "type") -> is_run a = Some (typed_run a).
Proof.
  intros [ty Ha]. unfold is_run, typed_run. rewrite Ha.
  cbn [mbind option_bind]. rewrite eq_Run. reflexivity.
Qed.

(** X9.  The filter keeps exactly the activities whose [type] is the
    text [Run], in the order given.  It goes through when every element
    is an object with a [type], and raises otherwise. *)
Theorem run_filter_keeps_the_runs (l : list value) :
  (Forall (fun a => is_Some (Py.item a "type")) l ->
     run_filter l = Some (List.filter typed_run l))
  /\ (forall r, run_filter l = Some r ->
        r = List.filter typed_run l
        /\ Forall (fun a => is_Some (Py.item a "type")) l
        /\ Forall (fun a => Py.item a "type" = Some (VStr "Run")) r)
  /\ (forall a, In a l -> Py.item a "type" = None -> run_filter l = None).
Proof.
  assert (Hback : forall r, run_filter l = Some r ->
            r = List.filter typed_run l
            /\ Forall (fun a => is_Some (Py.item a "type")) l).
  { intros r Hr. unfold run_filter in Hr.
    apply keep_if_filter in Hr as [Hall ->]. split.
    - apply List.filter_ext. intros a. apply is_run_typed.
    - eapply Forall_impl; [exact Hall|]. intros a [b Hb]. unfold is_run in Hb.
      destruct (Py.item a "type"); [eauto|discriminate]. }
  split; [|split].
  - intros Hall. clear Hback. unfold run_filter.
    induction Hall as [|a l' Ha Hall IH]; [reflexivity|].
    cbn [Py.keep_if List.filter]. rewrite (is_run_Some a Ha), IH. reflexivity.
  - intros r Hr. destruct (Hback r Hr) as [-> Hall].
    split; [reflexivity|]. split; [exact Hall|].
    apply List.Forall_forall. intros a Hin. apply List.filter_In in Hin as [_ Ht].
    unfold typed_run in Ht. destruct (Py.item a "type") as [[]|]; try discriminate.
    apply String.eqb_eq in Ht. subst. reflexivity.
  - intros a Hin Ha. unfold run_filter. apply (keep_if_raises _ _ a Hin).
    unfold is_run. rewrite Ha. reflexivity.
Qed.

(** *** The activity list and the session *)

(** The view once the credential check and the reload went through. *)
Lemma get_user_activity_data_fetches (sid : string) (us us1 : session)
    (st st1 : state W) (fuel : nat) (start_date end_date : option string) :
  sid ≠ "" ->
  redis st !! sid = Some us ->
  Py.truthy (field us "user_id") = true ->
  Py.truthy (field us "run_activities")
    && negb (given start_date || given end_date) = false ->
  (check_access_token_status (Some sid) ;; get_session (Some sid)) st
    = (Return us1, st1) ->
  get_user_activity_data fuel (Some sid) start_date end_date st
    = (let* all_strava_activities :=
         fetch_activities fuel us1 (activity_payload start_date end_date) [] 1 in
       let* run_activities := lift (run_filter all_strava_activities) in
       (if negb (given start_date || given end_date)
        then redis_set (Some sid) (<["run_activities" := VList run_activities]> us1)
        else ret tt) ;;
       ret (Json (VDict [("error_status", VBool false);
                         ("athlete_running_data", VList run_activities)]))) st1.
Proof.
  intros Hne Hin Hu Hc Hpre. unfold get_user_activity_data.
  rewrite bind_eq, (get_session_stored sid us st Hne Hin), Hu, Hc.
  unfold try_except. rewrite Hpre. reflexivity.
Qed.

Lemma fetch_activities_redis (fuel : nat) (us : session)
    (payload : list (string * value)) (acc : list value) (pn : Z)
    (st : state W) :
  redis (snd (fetch_activities fuel us payload acc pn st)) = redis st.
Proof.
  refine (proj1 (keeps_fetch_activities (fun s => redis s = redis st)
                   fuel us payload acc pn _ st eq_refl)).
  intros s s' E Hs. rewrite E. exact Hs.
Qed.

(** X10.  A request with a date filter leaves the cached list alone: the
    store after the view is the store the credential check left, for any
    caller and whatever the provider answers.  The payload, built once
    for all pages, asks for 200 activities of page 1, bounded by the
    dates that were given and by no others. *)
Theorem filtered_activity_request_bypasses_the_cache (fuel : nat)
    (session_id start_date end_date : option string) (st : state W) :
  let payload := activity_payload start_date end_date in
  (given start_date || given end_date = true ->
   redis (snd (get_user_activity_data fuel session_id start_date end_date st))
     = redis (snd (check_access_token_status session_id st)))
  /\ Py.assoc_get "per_page" payload = Some (VInt 200)
  /\ Py.assoc_get "page" payload = Some (VInt 1)
  /\ Py.assoc_get "after" payload
       = (if given start_date then Some (VStr (default "" start_date)) else None)
  /\ Py.assoc_get "before" payload
       = (if given end_date then Some (VStr (default "" end_date)) else None).
Proof.
  intros payload. split.
  - intros Hg.
    destruct (check_access_token_status_effect session_id st) as (Hfail & _ & _).
    destruct (authenticated session_id st) eqn:Ha.
    + destruct (authenticated_true _ _ Ha) as (sid & us & -> & Hne & Hin & Hu & E).
      assert (Hc : Py.truthy (field us "run_activities")
                     && negb (given start_date || given end_date) = false)
        by (rewrite Hg; apply andb_false_r).
      destruct ((check_access_token_status (Some sid) ;; get_session (Some sid)) st)
        as [[us1| |] st1] eqn:Hpre.
      * rewrite (get_user_activity_data_fetches sid us us1 st st1 fuel _ _
                   Hne Hin Hu Hc Hpre).
        destruct (check_then_reload _ _ _ _ Hpre) as (Ec & _). rewrite Ec.
        cbn [snd]. rewrite Hg. cbn [negb]. rewrite bind_eq.
        pose proof (fetch_activities_redis fuel us1
                      (activity_payload start_date end_date) [] 1 st1) as Hr.
        destruct (fetch_activities fuel us1 _ [] 1 st1) as [[all| |] st2];
          simpl in Hr; try exact Hr.
        rewrite bind_eq. destruct (run_filter all) as [runs|]; simpl; exact Hr.
      * unfold get_user_activity_data.
        rewrite bind_eq, E, Hu, Hc. unfold try_except. rewrite Hpre.
        rewrite bind_eq in Hpre.
        destruct (check_access_token_status (Some sid) st) as [[[]| |] st0] eqn:Ec.
        -- destruct (get_session_total (Some sid) st0) as (u & Eu & _).
           rewrite Eu in Hpre. discriminate Hpre.
        -- inversion Hpre; subst. reflexivity.
        -- discriminate Hpre.
      * exfalso. rewrite bind_eq in Hpre.
        pose proof (check_access_token_status_outcome (Some sid) st) as Ho.
        destruct (check_access_token_status (Some sid) st) as [[[]| |] st0] eqn:Ec.
        -- destruct (get_session_total (Some sid) st0) as (u & Eu & _).
           rewrite Eu in Hpre. discriminate Hpre.
        -- discriminate Hpre.
        -- apply Ho. reflexivity.
    + destruct (authenticated_false _ _ Ha) as (us & E & Hf).
      unfold get_user_activity_data. rewrite bind_eq, E, Hf. cbn [snd].
      symmetry. apply Hfail. unfold check_access_token_status.
      rewrite bind_eq, E, Hf. discriminate.
  - subst payload. unfold activity_payload.
    destruct (given start_date), (given end_date); repeat split.
Qed.

(** X11.  An unfiltered request answered with a list of runs that is
    not empty is answered the same way when it is repeated: the second
    answer comes from the session, with the state left as it is, so that
    no provider and no clock is asked. *)
Theorem repeated_activity_request_is_served_from_the_session
    (fuel fuel' : nat) (session_id : option string) (runs : list value)
    (st st' : state W) :
  get_user_activity_data fuel session_id None None st
    = (Return (Json (VDict [("error_status", VBool false);
                            ("athlete_running_data", VList runs)])), st') ->
  runs ≠ [] ->
  get_user_activity_data fuel' session_id None None st'
    = (Return (Json (VDict [("error_status", VBool false);
                            ("athlete_running_data", VList runs)])), st').
Proof.
  intros Hfirst Hruns.
  assert (Htruthy : Py.truthy (VList runs) = true)
    by (destruct runs; [congruence|reflexivity]).
  destruct (authenticated session_id st) eqn:Ha.
  2:{ destruct (authenticated_false _ _ Ha) as (us & E & Hf).
      unfold get_user_activity_data in Hfirst.
      rewrite bind_eq, E, Hf in Hfirst. discriminate Hfirst. }
  destruct (authenticated_true _ _ Ha) as (sid & us & -> & Hne & Hin & Hu & E).
  destruct (Py.truthy (field us "run_activities")
              && negb (given None || given None)) eqn:Hc.
  - unfold get_user_activity_data in Hfirst |- *.
    rewrite bind_eq, E, Hu, Hc in Hfirst. inversion Hfirst; subst st'.
    rewrite bind_eq, E, Hu, Hc. reflexivity.
  - destruct ((check_access_token_status (Some sid) ;; get_session (Some sid)) st)
      as [[us1| |] st1] eqn:Hpre.
    + rewrite (get_user_activity_data_fetches sid us us1 st st1 fuel _ _
                 Hne Hin Hu Hc Hpre) in Hfirst.
      destruct (check_then_reload _ _ _ _ Hpre)
        as (_ & sid' & us' & Hsid & _ & Hin' & _ & _ & _ & Hsame).
      inversion Hsid; subst sid'. rewrite Hin in Hin'. inversion Hin'; subst us'.
      apply bind_Return_inv in Hfirst as (all & st2 & _ & Hfirst).
      apply bind_Return_inv in Hfirst as (runs' & st3 & Hf & Hfirst).
      apply lift_Return_inv in Hf as [_ ->].
      apply bind_Return_inv in Hfirst as ([] & st4 & Hset & Hfirst).
      apply ret_Return_inv in Hfirst as [Hbody ->].
      inversion Hbody; subst runs'. cbn [given orb negb redis_set] in Hset.
      inversion Hset; subst st4. clear Hset Hbody.
      set (record := <["run_activities" := VList runs]> us1).
      set (st' := State (<[sid := record]> (redis st2)) (world st2) (trace st2)).
      assert (Hin1 : redis st' !! sid = Some record) by apply lookup_insert_eq.
      unfold get_user_activity_data.
      rewrite bind_eq, (get_session_stored sid record st' Hne Hin1).
      assert (Hu1 : Py.truthy (field record "user_id") = true).
      { unfold record. rewrite field_insert_ne by discriminate.
        rewrite (same_but_credential_user_id _ _ Hsame). exact Hu. }
      assert (Hr1 : field record "run_activities" = VList runs)
        by apply field_insert_eq.
      rewrite Hu1, Hr1, Htruthy. reflexivity.
    + unfold get_user_activity_data in Hfirst.
      rewrite bind_eq, E, Hu, Hc in Hfirst. unfold try_except in Hfirst.
      rewrite Hpre in Hfirst. discriminate Hfirst.
    + unfold get_user_activity_data in Hfirst.
      rewrite bind_eq, E, Hu, Hc in Hfirst. unfold try_except in Hfirst.
      rewrite Hpre in Hfirst. discriminate Hfirst.
Qed.

(** X12.  The run filter is not guarded.  When the provider answers the
    list request with an object that is not empty, as it does to report
    an error, the loop takes the object's keys for activities and the
    filter fails on the first of them: the view raises instead of
    answering [{error_status: True}], and nothing is stored. *)
Theorem provider_error_object_fails_the_activity_view (sid : string)
    (us us1 : session) (st st1 : state W) (fuel : nat)
    (start_date end_date : option string) (d : list (string * value)) (w2 : W) :
  sid ≠ "" ->
  redis st !! sid = Some us ->
  Py.truthy (field us "user_id") = true ->
  Py.truthy (field us "run_activities")
    && negb (given start_date || given end_date) = false ->
  (check_access_token_status (Some sid) ;; get_session (Some sid)) st
    = (Return us1, st1) ->
  let rq := Request GET activities_url (activity_payload start_date end_date) []
              (bearer us1) in
  send rq (world st1) = (Some (Some (VDict d)), w2) ->
  d ≠ [] ->
  length d ≠ 200%nat ->
  get_user_activity_data (S fuel) (Some sid) start_date end_date st
    = (Raise, State (redis st1) w2 (rq :: trace st1)).
Proof.
  intros Hne Hin Hu Hc Hpre rq Es Hd Hlen.
  rewrite (get_user_activity_data_fetches sid us us1 st st1 (S fuel) _ _
             Hne Hin Hu Hc Hpre).
  rewrite bind_eq. cbn [fetch_activities].
  unfold requests, requests_call, json. rewrite !bind_eq. fold rq. rewrite Es.
  cbn [lift ret Py.iter Py.len]. rewrite !bind_eq. cbn [lift ret].
  rewrite !bind_eq. cbn [ret].
  destruct (Z.eqb_spec (Z.of_nat (length d)) 200) as [Heq|_]; [lia|].
  cbn [negb ret]. rewrite bind_eq.
  destruct d as [|[k v] d]; [congruence|]. reflexivity.
Qed.

(** *** The enrichment loop *)





(** *** A provider error in the activity detail *)

Lemma errors_make_truthy (d errors : value) :
  Py.get d "errors" = Some errors -> Py.truthy errors = true -> Py.truthy d = true.
Proof.
  destruct d as [| | | | | |l]; try discriminate.
  destruct l; [|reflexivity]. cbn. intros E. inversion E; subst. discriminate.
Qed.

(** X14.  The detail view stores what it fetched before it looks for a
    provider error.  When the detail that comes back reports errors, the
    block raises, yet the record saved for the session holds that body
    and the streams.  From then on the block fails on the stored body
    without sending anything: nothing but a new session clears the
    error. *)
Theorem strava_error_body_is_cached (sid : string) (activity_id : option string)
    (us : session) (st st1 st2 : state W) (d s errors : value) :
  Py.truthy (field us (data_key activity_id)) = false ->
  Py.truthy (field us (streams_key activity_id)) = false ->
  requests (detail_request us activity_id) st = (Return d, st1) ->
  Py.get d "errors" = Some errors ->
  Py.truthy errors = true ->
  requests (streams_request (<[data_key activity_id := d]> us) activity_id) st1
    = (Return s, st2) ->
  Py.truthy s = true ->
  let record := <[streams_key activity_id := s]> (<[data_key activity_id := d]> us) in
  strava_data_block (Some sid) activity_id us st
    = (Raise, State (<[sid := record]> (redis st2)) (world st2) (trace st2))
  /\ forall st3 : state W,
       strava_data_block (Some sid) activity_id record st3
         = (Raise, State (<[sid := record]> (redis st3)) (world st3) (trace st3)).
Proof.
  intros Hd Hs Ed Herr Htrue Es Hstrue record.
  assert (Hdtrue : Py.truthy d = true) by exact (errors_make_truthy d errors Herr Htrue).
  assert (Hs1 : field (<[data_key activity_id := d]> us) (streams_key activity_id)
                = field us (streams_key activity_id)).
  { apply field_insert_ne. apply data_key_not_streams_key. }
  assert (Hrd : field record (data_key activity_id) = d).
  { unfold record. rewrite field_insert_ne.
    - apply field_insert_eq.
    - intros E. symmetry in E. exact (data_key_not_streams_key _ E). }
  assert (Hrs : field record (streams_key activity_id) = s) by apply field_insert_eq.
  split.
  - unfold strava_data_block. rewrite bind_eq, Hd, bind_eq, Ed.
    cbn [ret]. rewrite bind_eq, Hs1, Hs, bind_eq, Es. cbn [ret].
    rewrite bind_eq. cbn [redis_set]. rewrite bind_eq, Herr. cbn [lift ret].
    rewrite Htrue. reflexivity.
  - intros st3. unfold strava_data_block.
    rewrite bind_eq, Hrd, Hdtrue. cbn [ret].
    rewrite bind_eq, Hrs, Hstrue. cbn [ret].
    rewrite bind_eq. cbn [redis_set]. rewrite bind_eq, Herr. cbn [lift ret].
    rewrite Htrue. reflexivity.
Qed.

(** *** Linking a listening-history account *)

(** X15.  The link view always answers with a JSON body and always sends
    exactly one request, the account lookup, whoever calls.  Either the
    body is [{error: True}] and the store is as before, or it is
    [{error: False}] and the record loaded for the session id, with the
    username set, has been saved under that id.  Without the header the
    lookup is still made and the answer is [{error: True}]. *)
Theorem retrieve_lastfm_user_always_answers (session_id username : option string)
    (st : state W) :
  let out := retrieve_lastfm_user session_id username st in
  trace (snd out) = user_info_request username :: trace st
  /\ ((fst out = Return (Json (VDict [("error", VBool true)]))
       /\ redis (snd out) = redis st)
      \/ (fst out = Return (Json (VDict [("error", VBool false)]))
          /\ exists sid us,
               session_id = Some sid
               /\ get_session (Some sid) st = (Return us, st)
               /\ redis (snd out)
                  = <[sid := <["last_fm_username" := arg_value username]> us]>
                      (redis st)))
  /\ (session_id = None ->
      fst out = Return (Json (VDict [("error", VBool true)]))).
Proof.
  intros out. subst out. unfold retrieve_lastfm_user. rewrite bind_eq.
  destruct (get_session_total session_id st) as (us & E & _). rewrite E.
  unfold try_except, requests, requests_call, json. rewrite !bind_eq.
  destruct (send (user_info_request username) (world st)) as [[[reply|]|] w];
    cbn [lift ret raise]; try (split; [reflexivity|]; split; [left; split; reflexivity|reflexivity]).
  rewrite !bind_eq.
  destruct (Py.get reply "error") as [err|]; cbn [lift ret raise];
    [|split; [reflexivity|]; split; [left; split; reflexivity|reflexivity]].
  destruct (Py.truthy err);
    [split; [reflexivity|]; split; [left; split; reflexivity|reflexivity]|].
  destruct session_id as [sid|]; cbn [redis_set raise].
  - split; [reflexivity|]. split; [|discriminate].
    right. split; [reflexivity|]. exists sid, us. auto.
  - split; [reflexivity|]. split; [left; split; reflexivity|reflexivity].
Qed.

(** X16.  A logged-in caller whose account the provider confirms: the
    username is added to the caller's record, every other field stays,
    and the status view then reports the account as linked exactly when
    the username is not empty. *)
Theorem linked_account_shows_in_status (sid : string) (username : option string)
    (us : session) (st : state W) (reply err : value) (w' : W) :
  sid ≠ "" ->
  redis st !! sid = Some us ->
  Py.truthy (field us "user_id") = true ->
  send (user_info_request username) (world st) = (Some (Some reply), w') ->
  Py.get reply "error" = Some err ->
  Py.truthy err = false ->
  let record := <["last_fm_username" := arg_value username]> us in
  let st' := State (<[sid := record]> (redis st)) w'
               (user_info_request username :: trace st) in
  retrieve_lastfm_user (Some sid) username st
    = (Return (Json (VDict [("error", VBool false)])), st')
  /\ (forall k, k ≠ "last_fm_username" -> record !! k = us !! k)
  /\ check_authentication (Some sid) st'
     = (Return (Json (VDict [("result", VBool true);
                             ("last_fm_status", VBool (given username))])), st').
Proof.
  intros Hne Hin Hu Es Herr Hfalse record st'.
  split; [|split].
  - unfold retrieve_lastfm_user.
    rewrite bind_eq, (get_session_stored sid us st Hne Hin).
    unfold try_except, requests, requests_call, json. rewrite !bind_eq, Es.
    cbn [lift ret]. rewrite !bind_eq, Herr. cbn [lift ret]. rewrite Hfalse.
    reflexivity.
  - intros k Hk. apply lookup_insert_ne. congruence.
  - assert (Hin' : redis st' !! sid = Some record) by apply lookup_insert_eq.
    unfold check_authentication.
    rewrite bind_eq, (get_session_stored sid record st' Hne Hin'). cbv zeta.
    assert (Hu' : field record "user_id" = field us "user_id")
      by (apply field_insert_ne; discriminate).
    assert (Hl : field record "last_fm_username" = arg_value username)
      by apply field_insert_eq.
    rewrite Hu', Hu, Hl. cbn [negb].
    destruct username as [u|]; reflexivity.
Qed.

(** *** The artist's top tracks *)

(** X17.  The loop over the artist's top tracks leaves out exactly the
    tracks named as the current track, and turns the others, in the
    order given, into entries credited to the artist. *)
Theorem top_tracks_leaves_out_the_current_track (l : list value)
    (music_data artist_data current artist : value) (r : list value) :
  Py.get music_data "name" = Some current ->
  Py.get artist_data "name" = Some artist ->
  top_tracks l music_data artist_data = Some r ->
  Forall2 (fun t e => track_relevant_data t artist = Some e
                      /\ Py.get e "track_name" = Py.get t "name"
                      /\ Py.get e "artist" = Some artist)
    (List.filter (other_than current) l) r.
Proof.
  intros Hcur Hart. revert r. induction l as [|t l IH]; intros r Hr.
  - inversion Hr; subst. constructor.
  - rewrite top_tracks_cons in Hr. cbn [List.filter]. unfold other_than at 1.
    destruct (Py.get t "name") as [name|] eqn:Hname; [|discriminate Hr].
    cbn [mbind option_bind] in Hr. rewrite Hcur in Hr.
    cbn [mbind option_bind] in Hr.
    destruct (negb (Py.eq name current)).
    + rewrite Hart in Hr. cbn [mbind option_bind] in Hr.
      destruct (track_relevant_data t artist) as [e|] eqn:He; [|discriminate Hr].
      cbn [mbind option_bind] in Hr.
      destruct (top_tracks l music_data artist_data) as [others|];
        [|discriminate Hr].
      cbn [mbind option_bind] in Hr. inversion Hr; subst. cbn [app].
      constructor; [|apply IH; reflexivity].
      split; [exact He|].
      unfold track_relevant_data in He.
      destruct (Py.get t "preview_url") as [pv|]; [|discriminate He].
      cbn [mbind option_bind] in He. rewrite Hname in He.
      cbn [mbind option_bind] in He. inversion He; subst.
      rewrite Hname. split; reflexivity.
    + cbn [mbind option_bind] in Hr.
      destruct (top_tracks l music_data artist_data) as [others|];
        [|discriminate Hr].
      cbn [mbind option_bind] in Hr. inversion Hr; subst. cbn [app].
      apply IH. reflexivity.
Qed.

(** *** The refreshed credential is the one used *)

Lemma check_access_token_status_refreshes (sid : string) (us : session)
    (st : state W) (e t : Q) (w1 w2 : W) (body a rt x : value) :
  sid ≠ "" ->
  redis st !! sid = Some us ->
  Py.truthy (field us "user_id") = true ->
  Py.num (field us "access_token_expirytime") = Some e ->
  time_time (world st) = (t, w1) ->
  (e < t)%Q ->
  send (refresh_request us) w1 = (Some (Some body), w2) ->
  Py.item body "access_token" = Some a ->
  Py.item body "refresh_token" = Some rt ->
  Py.item body "expires_at" = Some x ->
  check_access_token_status (Some sid) st
    = (Return tt,
       State (<[sid := <["access_token_expirytime" := x]>
                         (<["refresh_token" := rt]>
                            (<["access_token" := a]> us))]> (redis st))
             w2 (refresh_request us :: trace st)).
Proof.
  intros Hne Hin Hu He Ht Hlt Es Ea Ert Ex.
  unfold check_access_token_status.
  rewrite bind_eq, (get_session_stored sid us st Hne Hin), Hu.
  rewrite bind_eq. unfold now at 1. rewrite Ht.
  rewrite bind_eq, He. cbn [lift ret].
  apply Qlt_bool_iff in Hlt. rewrite Hlt.
  unfold try_except, requests, requests_call, json. rewrite !bind_eq.
  cbn [world redis trace]. rewrite Es. cbn [lift ret].
  rewrite !bind_eq, Ea. cbn [lift ret]. rewrite !bind_eq, Ert. cbn [lift ret].
  rewrite !bind_eq, Ex. cbn [lift ret redis_set redis world trace]. reflexivity.
Qed.

(** X18.  After a refresh, the views call the fitness provider with the
    new credential.  When the stored credential has expired and the
    provider grants a new one, the check stores the new triple, and what
    the views reload is that stored record: the profile view's request,
    sent right after the refresh, carries the new access token and not
    the one the request started with. *)
Theorem profile_request_carries_the_refreshed_credential (sid : string)
    (us : session) (st : state W) (e t : Q) (w1 w2 : W) (body a rt x : value) :
  sid ≠ "" ->
  redis st !! sid = Some us ->
  Py.truthy (field us "user_id") = true ->
  Py.num (field us "access_token_expirytime") = Some e ->
  time_time (world st) = (t, w1) ->
  (e < t)%Q ->
  send (refresh_request us) w1 = (Some (Some body), w2) ->
  Py.item body "access_token" = Some a ->
  Py.item body "refresh_token" = Some rt ->
  Py.item body "expires_at" = Some x ->
  let us1 : session :=
    <["access_token_expirytime" := x]>
      (<["refresh_token" := rt]> (<["access_token" := a]> us)) in
  let st' := snd (get_user_profile_data (Some sid) st) in
  trace st' = profile_request us1 :: refresh_request us :: trace st
  /\ rq_headers (profile_request us1) = [("Authorization", "Bearer " +:+ py_str a)]
  /\ redis st' = <[sid := us1]> (redis st)
  /\ same_but_credential us us1.
Proof.
  intros Hne Hin Hu He Ht Hlt Es Ea Ert Ex us1 st'. subst st'.
  pose proof (check_access_token_status_refreshes sid us st e t w1 w2 body a rt x
                Hne Hin Hu He Ht Hlt Es Ea Ert Ex) as Hc.
  fold us1 in Hc.
  set (st1 := State (<[sid := us1]> (redis st)) w2 (refresh_request us :: trace st))
    in Hc.
  assert (Hin1 : redis st1 !! sid = Some us1) by apply lookup_insert_eq.
  assert (Hrun : get_user_profile_data (Some sid) st
                 = (let* d := requests (profile_request us1) in
                    ret (Json (VDict [("error_status", VBool false);
                                      ("athlete_data", d)]))) st1).
  { unfold get_user_profile_data.
    rewrite bind_eq, (get_session_stored sid us st Hne Hin), Hu.
    unfold try_except. rewrite bind_eq, Hc.
    rewrite (get_session_stored sid us1 st1 Hne Hin1). reflexivity. }
  rewrite Hrun. unfold requests, requests_call, json. rewrite !bind_eq.
  split; [|split; [|split]].
  - destruct (send (profile_request us1) (world st1)) as [[[d|]|] w3]; reflexivity.
  - cbn [profile_request rq_headers]. unfold bearer.
    unfold us1. rewrite !field_insert_ne by discriminate.
    rewrite field_insert_eq. reflexivity.
  - destruct (send (profile_request us1) (world st1)) as [[[d|]|] w3]; reflexivity.
  - intros k H1 H2 H3. unfold us1. rewrite !lookup_insert_ne by congruence.
    reflexivity.
Qed.

(** *** What the catalog view touches *)

Lemma now_sends (P : request -> Prop) (st : state W) :
  sends P st (snd (now st)).
Proof.
  unfold now. destruct (time_time (world st)) as [t w].
  exists []. split; [reflexivity|constructor].
Qed.

Lemma requests_call_sends (P : request -> Prop) (rq : request) (st : state W) :
  P rq -> sends P st (snd (requests_call rq st)).
Proof.
  intros HP. unfold requests_call.
  destruct (send rq (world st)) as [[r|] w]; exists [rq]; split;
    try reflexivity; constructor; auto.
Qed.

Lemma spotify_token_request_to_catalog (rq : request) :
  spotify_token_request = Some rq -> to_catalog rq.
Proof.
  unfold spotify_token_request.
  destruct (environ_get "SPOTIFY_CLIENT_ID"); [|discriminate].
  destruct (environ_get "SPOTIFY_CLIENT_SECRET"); [|discriminate].
  intros E. inversion E; subst. left. reflexivity.
Qed.

Lemma refresh_spotify_access_token_sends (sid : option string) (us : session)
    (st : state W) :
  sends to_catalog st (snd (refresh_spotify_access_token sid us st)).
Proof.
  unfold refresh_spotify_access_token.
  apply bind_sends.
  - unfold spotify_token_valid. destruct (Py.truthy _); [|apply sends_refl].
    apply bind_sends; [apply now_sends|]. intros ? ? _.
    apply bind_sends; [apply lift_sends|]. intros ? ? _.
    apply bind_sends; [apply lift_sends|]. intros ? ? _. apply sends_refl.
  - intros valid st1 _. destruct valid.
    + apply bind_sends; [apply lift_sends|]. intros ? ? _. apply sends_refl.
    + apply bind_sends; [apply lift_sends|]. intros rq st2 Erq.
      apply lift_Return_inv in Erq as [Erq _].
      apply bind_sends;
        [apply requests_call_sends, spotify_token_request_to_catalog, Erq|].
      intros ? ? _. apply bind_sends; [apply now_sends|]. intros ? ? _.
      unfold json. apply bind_sends; [apply lift_sends|]. intros ? ? _.
      apply bind_sends; [apply lift_sends|]. intros ? ? _.
      apply bind_sends; [apply lift_sends|]. intros ? ? _.
      apply bind_sends; [apply lift_sends|]. intros ? ? _.
      apply bind_sends; [apply redis_set_sends|]. intros ? ? _. apply sends_refl.
Qed.

Lemma retrieve_data_from_spotify_sends (sid : option string) (us : session)
    (url_endpoint : string) (params : list (string * value)) (st : state W) :
  sends to_catalog st
    (snd (retrieve_data_from_spotify sid us url_endpoint params st)).
Proof.
  unfold retrieve_data_from_spotify.
  apply bind_sends; [apply refresh_spotify_access_token_sends|].
  intros [token us1] st1 _.
  apply bind_sends; [apply lift_sends|]. intros ? ? _.
  apply bind_sends; [|intros ? ? _; apply sends_refl].
  apply requests_sends. right. eexists. reflexivity.
Qed.

Ltac sends_lift := apply bind_sends; [apply lift_sends|intros ? ? _].

Lemma cross_reference_sends (sid : option string) (us : session) (track : value)
    (st : state W) :
  sends to_catalog st (snd (cross_reference sid us track st)).
Proof.
  unfold cross_reference. sends_lift. sends_lift.
  apply bind_sends; [apply retrieve_data_from_spotify_sends|]. intros [? ?] ? _.
  sends_lift. sends_lift.
  apply bind_sends; [apply retrieve_data_from_spotify_sends|]. intros [? ?] ? _.
  sends_lift. sends_lift.
  apply bind_sends; [apply retrieve_data_from_spotify_sends|]. intros [? ?] ? _.
  apply bind_sends; [apply retrieve_data_from_spotify_sends|]. intros [? ?] ? _.
  sends_lift. sends_lift. sends_lift.
  apply bind_sends; [apply retrieve_data_from_spotify_sends|]. intros [? ?] ? _.
  sends_lift. sends_lift. sends_lift. sends_lift. apply sends_refl.
Qed.

Lemma cross_reference_all_sends (sid activity_id : option string)
    (l : list value) (us : session) (acc : list value) (st : state W) :
  sends to_catalog st (snd (cross_reference_all sid activity_id l us acc st)).
Proof.
  revert us acc st. induction l as [|t l IH]; intros us acc st.
  - apply sends_refl.
  - cbn [cross_reference_all].
    apply bind_sends; [apply cross_reference_sends|]. intros [record us1] st1 _.
    apply bind_sends; [apply redis_set_sends|]. intros ? ? _. apply IH.
Qed.

(** X19.  The catalog view calls no provider but the catalog.  In the
    store it changes nothing but the caller's own record, and of that
    record nothing but the app credential and the catalog data of the
    activity asked for, whatever the catalog answers and wherever the
    loop over the tracks stops. *)
Theorem catalog_view_touches_its_own_fields_only (sid : string)
    (activity_id : option string) (us : session) (st : state W) :
  sid ≠ "" ->
  redis st !! sid = Some us ->
  let st' := snd (get_music_artist_data (Some sid) activity_id st) in
  sends to_catalog st st'
  /\ (forall other, other ≠ sid -> redis st' !! other = redis st !! other)
  /\ exists us', redis st' !! sid = Some us' /\ same_but_catalog activity_id us us'.
Proof.
  intros Hne Hin st'. subst st'.
  pose proof (get_session_stored sid us st Hne Hin) as E.
  unfold get_music_artist_data. rewrite bind_eq, E.
  destruct (Py.truthy (field us "user_id"));
    [|split; [apply sends_refl|]; split; [reflexivity|];
      exists us; split; [exact Hin|intros ? _ _; reflexivity]].
  split.
  - unfold try_except, artist_block.
    destruct (Py.truthy (field us (spotify_key activity_id))); [apply sends_refl|].
    rewrite bind_eq.
    destruct (Py.iter (field us (music_key activity_id))) as [tracks|];
      cbn [lift ret raise]; [|apply sends_refl].
    rewrite bind_eq.
    pose proof (cross_reference_all_sends (Some sid) activity_id tracks us [] st) as Hs.
    destruct (cross_reference_all (Some sid) activity_id tracks us [] st)
      as [[[records us1]| |] st1]; exact Hs.
  - set (P := fun s : state W =>
                (forall other, other ≠ sid -> redis s !! other = redis st !! other)
                /\ exists us', redis s !! sid = Some us'
                               /\ same_but_catalog activity_id us us').
    assert (HP : P st).
    { split; [reflexivity|]. exists us. split; [exact Hin|intros ? _ _; reflexivity]. }
    refine (proj1 (keeps_try_except P _ _ _ (fun _ => True) (fun _ => True)
                     _ _ _ st HP)).
    + unfold artist_block.
      destruct (Py.truthy (field us (spotify_key activity_id)));
        [apply keeps_ret; exact I|].
      keeps_next.
      eapply keeps_bind; [|intros [? ?] _; apply keeps_ret; exact I].
      apply (keeps_cross_reference_all P (same_but_catalog activity_id us)).
      * intros u Hu. split.
        -- intros s s' Es [Ho Hs]. split; rewrite Es; assumption.
        -- intros s record Ha [Ho (u0 & _ & _)]. split.
           ++ intros other Hother. cbn [redis].
              rewrite lookup_insert_ne by congruence. apply Ho, Hother.
           ++ exists record. split; [apply lookup_insert_eq|].
              intros k Hk1 Hk2. rewrite (Ha k Hk1). apply Hu; assumption.
      * intros u u' Hu Ha k Hk1 Hk2. rewrite (Ha k Hk1). apply Hu; assumption.
      * intros u v Hu k Hk1 Hk2. rewrite lookup_insert_ne by congruence.
        apply Hu; assumption.
      * intros ? _ _. reflexivity.
    + intros ? _. apply keeps_ret. exact I.
    + apply keeps_ret. exact I.
Qed.

(** *** The window asked of the listening history *)

Lemma answers_bind {A B : Type} (c : M W A) (k : A -> M W B) :
  answers c -> (forall a, answers (k a)) -> answers (bind c k).
Proof.
  intros Hc Hk st. rewrite bind_eq. specialize (Hc st).
  destruct (c st) as [[a| |] st1]; simpl in *;
    [apply Hk|discriminate|congruence].
Qed.

Lemma answers_ret {A : Type} (a : A) : answers (@ret W A a).
Proof. intros st. discriminate. Qed.

Lemma answers_lift {A : Type} (o : option A) : answers (@lift W A o).
Proof. intros st. destruct o; discriminate. Qed.

Lemma answers_requests (rq : request) : answers (requests rq).
Proof.
  intros st. unfold requests, requests_call, json. rewrite bind_eq.
  destruct (send rq (world st)) as [[[r|]|] w]; discriminate.
Qed.

Lemma answers_redis_set (key : option string) (record : session) :
  answers (redis_set key record : M W unit).
Proof. intros st. destruct key; discriminate. Qed.

Lemma answers_try_except {A B : Type} (body : M W A) (rest : A -> M W B)
    (handler : M W B) :
  answers body -> (forall a, answers (rest a)) -> answers handler ->
  answers (try_except body rest handler).
Proof.
  intros Hb Hr Hh st. unfold try_except. specialize (Hb st).
  destruct (body st) as [[a| |] st1]; simpl in *;
    [apply Hr|apply Hh|congruence].
Qed.

Lemma answers_enrich (music_list : list value) : answers (enrich music_list).
Proof.
  induction music_list as [|track rest IH]; [apply answers_ret|].
  cbn [enrich].
  repeat (apply answers_bind;
          [first [apply answers_lift|apply answers_requests|exact IH]|intros ?]).
  apply answers_ret.
Qed.

Lemma answers_music_block (session_id activity_id : option string)
    (us : session) (start_time_unix : Z) (end_time_unix : value) :
  answers (music_block session_id activity_id us start_time_unix end_time_unix).
Proof.
  unfold music_block.
  repeat (apply answers_bind;
          [first [apply answers_lift|apply answers_requests|apply answers_enrich
                 |apply answers_redis_set]|intros ?]).
  apply answers_ret.
Qed.

Lemma sends_weaken (P Q : request -> Prop) (st st' : state W) :
  (forall rq, P rq -> Q rq) -> sends P st st' -> sends Q st st'.
Proof.
  intros HPQ (new & Hn & Hall). exists new. split; [exact Hn|].
  eapply Forall_impl; [exact Hall|exact HPQ].
Qed.

Lemma requests_trace (rq : request) (st : state W) :
  trace (snd (requests rq st)) = rq :: trace st.
Proof.
  unfold requests, requests_call, json. rewrite bind_eq.
  destruct (send rq (world st)) as [[[r|]|] w]; reflexivity.
Qed.

Lemma music_block_first_request (session_id activity_id : option string)
    (us : session) (start_time_unix : Z) (end_time_unix : value) (st : state W) :
  exists later,
    trace (snd (music_block session_id activity_id us start_time_unix
                  end_time_unix st))
      = (later ++ recent_tracks_request us start_time_unix end_time_unix
               :: trace st)%list.
Proof.
  unfold music_block. rewrite bind_eq.
  pose proof (requests_trace
                (recent_tracks_request us start_time_unix end_time_unix) st) as Ht.
  destruct (requests _ st) as [[reply| |] st1]; simpl in Ht;
    [|exists []; exact Ht..].
  match goal with
  | |- exists later, trace (snd (?c st1)) = _ =>
      assert (Hs : sends (fun _ => True) st1 (snd (c st1)))
  end.
  { apply bind_sends; [apply lift_sends|]. intros ? ? _.
    apply bind_sends; [apply lift_sends|]. intros ? ? _.
    apply bind_sends; [apply lift_sends|]. intros ? ? _.
    apply bind_sends.
    - eapply sends_weaken; [|apply enrich_sends]. auto.
    - intros ? ? _. apply bind_sends; [apply lift_sends|]. intros ? ? _.
      apply bind_sends; [apply redis_set_sends|]. intros ? ? _. apply sends_refl. }
  destruct Hs as (new & Hn & _). exists new. rewrite Hn, Ht. reflexivity.
Qed.

(** X20.  The music view computes the activity's window from its detail:
    it starts at the second the start date parses to, cut to an integer,
    and lasts the elapsed time.  When no play list is cached, the first
    request after the detail asks the listening history of the linked
    account for the plays from 300 seconds before the start to the end,
    and the view answers either with the window and a play list, or with
    [{error_status: True}]. *)
Theorem music_window_comes_from_the_detail (session_id activity_id : option string)
    (us : session) (detail : value) (st : state W) (s : string) (q : Q)
    (elapsed : Z) :
  Py.get detail "start_date" = Some (VStr s) ->
  parse_timestamp s = Some q ->
  Py.get detail "elapsed_time" = Some (VInt elapsed) ->
  Py.truthy (field us (music_key activity_id)) = false ->
  let start := Py.trunc q in
  let rq := recent_tracks_request us start (VInt (start + elapsed)) in
  let out := music_after_detail session_id activity_id us detail st in
  (exists later, trace (snd out) = (later ++ rq :: trace st)%list)
  /\ Py.assoc_get "from" (rq_params rq) = Some (VInt (start - 300))
  /\ Py.assoc_get "to" (rq_params rq) = Some (VInt (start + elapsed))
  /\ Py.assoc_get "user" (rq_params rq) = Some (field us "last_fm_username")
  /\ (fst out = Return error_status_true
      \/ exists music,
           fst out
           = Return (Json (VDict [("music_data", music);
                                  ("activity_times",
                                    VDict [("startTime", VInt start);
                                           ("endTime", VInt (start + elapsed))])]))).
Proof.
  intros Hsd Hq Hel Hc start rq out.
  assert (Hrun : out = try_except
                         (music_block session_id activity_id us start
                            (VInt (start + elapsed)))
                         (fun music_list =>
                            ret (Json (VDict [("music_data", music_list);
                                              ("activity_times",
                                                VDict [("startTime", VInt start);
                                                       ("endTime", VInt (start + elapsed))])])))
                         (ret error_status_true) st).
  { subst out. unfold music_after_detail.
    rewrite bind_eq, Hsd. cbn [lift ret]. rewrite bind_eq.
    unfold start_time. rewrite Hq. cbn [mbind option_bind lift ret].
    rewrite bind_eq, Hel. cbn [lift ret]. rewrite bind_eq.
    cbn [Py.add_int lift ret]. rewrite Hc. reflexivity. }
  rewrite Hrun. unfold try_except.
  pose proof (music_block_first_request session_id activity_id us start
                (VInt (start + elapsed)) st) as Hfirst.
  pose proof (answers_music_block session_id activity_id us start
                (VInt (start + elapsed)) st) as Hans.
  fold rq in Hfirst.
  destruct (music_block session_id activity_id us start (VInt (start + elapsed)) st)
    as [[music| |] st1]; simpl in Hfirst, Hans.
  - split; [exact Hfirst|]. repeat (split; [reflexivity|]). right. eauto.
  - split; [exact Hfirst|]. repeat (split; [reflexivity|]). left. reflexivity.
  - congruence.
Qed.

(** *** Logging in and out again *)

(** X21.  A login followed by the logout of the token it drew leaves the
    store as it was before the login, provided the token named no record
    then: whether the login went through or not, nothing of it stays. *)
Theorem logout_undoes_login (session_id : option string) (token : string)
    (auth_code : option string) (st : state W) :
  redis st !! token = None ->
  redis (snd (logout_user (Some token)
                (snd (auth_callback session_id token auth_code st))))
    = redis st.
Proof.
  intros Hfree.
  assert (Hredis : redis (snd (auth_callback session_id token auth_code st)) = redis st
                   \/ exists record,
                        redis (snd (auth_callback session_id token auth_code st))
                          = <[token := record]> (redis st)).
  { unfold auth_callback. rewrite bind_eq.
    destruct (get_session_total session_id st) as (us & E & _). rewrite E.
    destruct (negb (Py.truthy (field us "user_id"))); [|left; reflexivity].
    unfold try_except.
    destruct (login_block_run token auth_code st)
      as [(w0 & Er)|(body & athlete & id & a & rt & x & w & _ & _ & _ & _ & _ & _ & Er)];
      rewrite Er; [left; reflexivity|right; eexists; reflexivity]. }
  unfold logout_user. rewrite bind_eq. cbn [redis_delete snd redis].
  destruct Hredis as [->|(record & ->)].
  - apply delete_id. exact Hfree.
  - rewrite delete_insert_eq. apply delete_id. exact Hfree.
Qed.


End FurtherFacts.

(** ** The further statements on concrete sessions *)

Lemma unauthenticated_requests_are_refused_witness :
  @get_user_profile_data _ Cases.lastfm_host (Some "abc")
    (Sim.start {["abc" := Scenes.stray]})
  = (Return (Abort 401), Sim.start {["abc" := Scenes.stray]}).
Proof.
  refine (proj1 (proj2 (@unauthenticated_requests_are_refused _ Cases.lastfm_host
                          (Some "abc") (Sim.start {["abc" := Scenes.stray]})
                          1 None None None _))).
  vm_compute. reflexivity.
Defined.

Lemma views_keep_records_of_logged_in_users_witness :
  records_have_user_id (snd Scenes.short_first).
Proof.
  refine (proj1 (@views_keep_records_of_logged_in_users _ Scenes.short_host
                   Scenes.logged_in 3 (Some "sid") None None None _)).
  intros sid us Hin. unfold Scenes.logged_in, Sim.start in Hin. cbn [redis] in Hin.
  apply lookup_singleton_Some in Hin as [_ <-]. reflexivity.
Defined.

Lemma auth_callback_logs_in_witness :
  fst (@auth_callback _ (Scenes.exchange_host 1000) None "t0k3n" (Some "c0de")
         (Sim.start ∅))
    = Return (Json (VDict [("error", VBool false); ("session_id", VStr "t0k3n");
                           ("user_data",
                             VDict [("id", VInt 7); ("firstname", VStr "Ann")])]))
  /\ fst (check_authentication (Some "t0k3n")
            (snd (@auth_callback _ (Scenes.exchange_host 1000) None "t0k3n"
                    (Some "c0de") (Sim.start ∅))))
     = Return (Json (VDict [("result", VBool true);
                            ("last_fm_status", VBool false)])).
Proof.
  pose proof (@auth_callback_logs_in _ (Scenes.exchange_host 1000) None "t0k3n"
                (Some "c0de") (Sim.start ∅) Scenes.token_triple
                (VDict [("id", VInt 7); ("firstname", VStr "Ann")]) (VInt 7)
                (VStr "new") (VStr "ref2") (VInt 9000) (Sim.World 1 0)
                eq_refl eq_refl eq_refl eq_refl eq_refl eq_refl eq_refl) as Hlogin.
  cbv zeta in Hlogin. destruct Hlogin as [Hrun Hstatus].
  rewrite Hrun. split; [reflexivity|].
  destruct (Hstatus ltac:(discriminate) eq_refl) as [_ Hcheck].
  cbn [snd]. rewrite Hcheck. reflexivity.
Defined.

Lemma failed_check_is_reported_witness :
  @get_user_profile_data _ Scenes.down_host (Some "sid") Scenes.logged_in
  = (Return error_status_true,
     snd (@check_access_token_status _ Scenes.down_host (Some "sid")
            Scenes.logged_in))
  /\ redis (snd (@check_access_token_status _ Scenes.down_host (Some "sid")
                   Scenes.logged_in))
     = redis Scenes.logged_in.
Proof.
  assert (Hfails : fst (@check_access_token_status _ Scenes.down_host (Some "sid")
                          Scenes.logged_in) <> Return tt)
    by (vm_compute; discriminate).
  pose proof (@failed_check_is_reported _ Scenes.down_host "sid" Cases.athlete
                Scenes.logged_in 1 None None None
                ltac:(discriminate) eq_refl eq_refl Hfails) as Hreport.
  cbv zeta in Hreport. destruct Hreport as (Hredis & _ & Hprofile & _).
  split; [exact Hprofile|exact Hredis].
Defined.

Lemma fetch_activities_reads_to_the_short_page_witness :
  exists all,
    fst (@fetch_activities _ Cases.pages_host 10 Cases.athlete
           (activity_payload None None) [] 1 Scenes.logged_in)
      = Return all
    /\ length all = 550%nat.
Proof.
  pose proof (@fetch_activities_reads_to_the_short_page _ Cases.pages_host 10
                Cases.athlete (activity_payload None None) [] 1 Scenes.logged_in
                [map Cases.activity (seq 0 200); map Cases.activity (seq 0 200)]
                (map Cases.activity (seq 0 150)) (Sim.World 3 0)) as Hloop.
  cbv zeta in Hloop.
  eexists. rewrite Hloop.
  - split; [reflexivity|]. cbn [app concat].
    rewrite !length_app, !length_map, !length_seq. reflexivity.
  - exists (Sim.World 1 0). split; [reflexivity|].
    exists (Sim.World 2 0). split; [reflexivity|].
    exists (Sim.World 3 0). split; [reflexivity|]. reflexivity.
  - repeat constructor; rewrite length_map, length_seq; reflexivity.
  - rewrite length_map, length_seq. discriminate.
  - simpl. lia.
Defined.

Lemma repeated_activity_request_is_served_from_the_session_witness :
  @get_user_activity_data _ Scenes.short_host 0 (Some "sid") None None
    (snd Scenes.short_first)
  = (Return (Json (VDict [("error_status", VBool false);
                          ("athlete_running_data",
                            VList (map Cases.activity (seq 0 2)))])),
     snd Scenes.short_first).
Proof.
  assert (Hfirst : @get_user_activity_data _ Scenes.short_host 3 (Some "sid")
                     None None Scenes.logged_in
                   = (Return (Json (VDict [("error_status", VBool false);
                                           ("athlete_running_data",
                                             VList (map Cases.activity (seq 0 2)))])),
                      snd Scenes.short_first))
    by (vm_compute; reflexivity).
  exact (@repeated_activity_request_is_served_from_the_session _ Scenes.short_host
           3 0 (Some "sid") (map Cases.activity (seq 0 2)) Scenes.logged_in
           (snd Scenes.short_first) Hfirst ltac:(discriminate)).
Defined.

Lemma provider_error_object_fails_the_activity_view_witness :
  fst (@get_user_activity_data _ Cases.not_found_host 1 (Some "sid") None None
         Scenes.logged_in)
  = Raise.
Proof.
  assert (Hpre : (@check_access_token_status _ Cases.not_found_host (Some "sid") ;;
                  get_session (Some "sid")) Scenes.logged_in
                 = (Return Cases.athlete,
                    State {["sid" := Cases.athlete]} (Sim.World 0 1) []))
    by (vm_compute; reflexivity).
  pose proof (@provider_error_object_fails_the_activity_view _ Cases.not_found_host
                "sid" Cases.athlete Cases.athlete Scenes.logged_in _ 0 None None
                [("message", VStr "Record Not Found");
                 ("errors", VList [VDict [("resource", VStr "Activity");
                                          ("code", VStr "not found")]])]
                (Sim.World 1 1)
                ltac:(discriminate) eq_refl eq_refl eq_refl Hpre eq_refl
                ltac:(discriminate) ltac:(discriminate)) as Hraise.
  cbv zeta in Hraise. rewrite Hraise. reflexivity.
Defined.


Lemma strava_error_body_is_cached_witness :
  fst (@strava_data_block _ Cases.not_found_host (Some "sid") (Some "5")
         Cases.athlete Scenes.logged_in)
    = Raise
  /\ field (default ∅
              (redis (snd (@strava_data_block _ Cases.not_found_host (Some "sid")
                             (Some "5") Cases.athlete Scenes.logged_in)) !! "sid"))
       "5_data"
     = Cases.not_found_body.
Proof.
  pose proof (@strava_error_body_is_cached _ Cases.not_found_host "sid" (Some "5")
                Cases.athlete Scenes.logged_in
                (State {["sid" := Cases.athlete]} (Sim.World 1 0)
                   [@detail_request _ Cases.not_found_host Cases.athlete (Some "5")])
                (State {["sid" := Cases.athlete]} (Sim.World 2 0)
                   [@streams_request _ Cases.not_found_host
                      (<["5_data" := Cases.not_found_body]> Cases.athlete) (Some "5");
                    @detail_request _ Cases.not_found_host Cases.athlete (Some "5")])
                Cases.not_found_body Cases.not_found_body
                (VList [VDict [("resource", VStr "Activity");
                               ("code", VStr "not found")]])
                eq_refl eq_refl eq_refl eq_refl eq_refl eq_refl eq_refl) as Hcached.
  cbv zeta in Hcached. destruct Hcached as [Hrun _].
  rewrite Hrun. split; [reflexivity|]. vm_compute. reflexivity.
Defined.

Lemma linked_account_shows_in_status_witness :
  fst (check_authentication (Some "sid")
         (snd (@retrieve_lastfm_user _ Cases.lastfm_host (Some "sid") (Some "bob")
                 Scenes.logged_in)))
  = Return (Json (VDict [("result", VBool true); ("last_fm_status", VBool true)])).
Proof.
  pose proof (@linked_account_shows_in_status _ Cases.lastfm_host "sid" (Some "bob")
                Cases.athlete Scenes.logged_in
                (VDict [("user", VDict [("name", VStr "bob")])]) VNone
                (Sim.World 1 0)
                ltac:(discriminate) eq_refl eq_refl eq_refl eq_refl eq_refl)
    as Hlinked.
  cbv zeta in Hlinked. destruct Hlinked as (Hrun & _ & Hstatus).
  rewrite Hrun. cbn [snd]. rewrite Hstatus. reflexivity.
Defined.

Lemma top_tracks_leaves_out_the_current_track_witness :
  Forall2 (fun t e => track_relevant_data t (VStr "Seed") = Some e
                      /\ Py.get e "track_name" = Py.get t "name"
                      /\ Py.get e "artist" = Some (VStr "Seed"))
    [Cases.catalog_track "Hit" "Seed"] [Scenes.hit_entry].
Proof.
  exact (top_tracks_leaves_out_the_current_track Scenes.tops
           (VDict [("name", VStr "Song")]) (Cases.seed_artist Cases.cover)
           (VStr "Song") (VStr "Seed") [Scenes.hit_entry]
           eq_refl eq_refl eq_refl).
Defined.

Lemma profile_request_carries_the_refreshed_credential_witness :
  map rq_headers
    (trace (snd (@get_user_profile_data _ (Scenes.exchange_host 3000) (Some "sid")
                   Scenes.logged_in)))
  = [[("Authorization", "Bearer new")]; []].
Proof.
  pose proof (@profile_request_carries_the_refreshed_credential _
                (Scenes.exchange_host 3000) "sid" Cases.athlete Scenes.logged_in
                (inject_Z 2000) 3000%Q (Sim.World 0 1) (Sim.World 1 1)
                Scenes.token_triple (VStr "new") (VStr "ref2") (VInt 9000)
                ltac:(discriminate) eq_refl eq_refl eq_refl eq_refl eq_refl
                eq_refl eq_refl eq_refl eq_refl) as Hfresh.
  cbv zeta in Hfresh. destruct Hfresh as (Htrace & Hheaders & _).
  rewrite Htrace. cbn [map]. rewrite Hheaders. reflexivity.
Defined.

Lemma catalog_view_touches_its_own_fields_only_witness :
  exists us',
    redis (snd Cases.faceless_run) !! "sid" = Some us'
    /\ same_but_catalog (Some "5") Cases.listener us'.
Proof.
  pose proof (@catalog_view_touches_its_own_fields_only _ Cases.faceless_host "sid"
                (Some "5") Cases.listener (Sim.start {["sid" := Cases.listener]})
                ltac:(discriminate) eq_refl) as Hframe.
  cbv zeta in Hframe. destruct Hframe as (_ & _ & Hrecord). exact Hrecord.
Defined.

Lemma music_window_comes_from_the_detail_witness :
  exists later,
    trace (snd (@music_after_detail _ Cases.history_host (Some "sid") (Some "5")
                  Cases.linked Cases.detail_body
                  (Sim.start {["sid" := Cases.linked]})))
    = (later ++ [@recent_tracks_request _ Cases.history_host Cases.linked 10000
                   (VInt 11800)])%list.
Proof.
  pose proof (@music_window_comes_from_the_detail _ Cases.history_host (Some "sid")
                (Some "5") Cases.linked Cases.detail_body
                (Sim.start {["sid" := Cases.linked]}) "10000" (inject_Z 10000) 1800
                eq_refl eq_refl eq_refl eq_refl) as Hwindow.
  cbv zeta in Hwindow. destruct Hwindow as (Hfirst & _). exact Hfirst.
Defined.

Lemma logout_undoes_login_witness :
  redis (snd (logout_user (Some "t0k3n")
                (snd (@auth_callback _ (Scenes.exchange_host 1000) None "t0k3n"
                        (Some "c0de") Scenes.logged_in))))
  = redis Scenes.logged_in.
Proof.
  exact (@logout_undoes_login _ (Scenes.exchange_host 1000) None "t0k3n"
           (Some "c0de") Scenes.logged_in eq_refl).
Defined.

